(** * Smart PPE compliance checker: detection normalizer, compliance
      evaluator, alert formatter, recipient resolver and alert dispatcher.

    Shallow embedding of [ppe_detector.py], [alert_service.py] and
    [compliance_service.py].

    Conventions of the embedding.
    - A Python [float] is an IEEE 754 binary64 number: [spec_float] with
      precision 53 and maximal exponent 1024, including NaN, the infinities
      and the two zeros.  Comparisons are [SFleb]/[SFltb], arithmetic is
      [SFdiv]/[SFmul] with their correct rounding.
    - A Python [str] is a [string] of bytes; [str.lower] acts on the
      ASCII letters [A]..[Z].
    - A dict read with [.get(key, default)] is a record of options.
    - Calls into the messaging SDKs, the HTTP client and the database are
      calls to an environment that answers with a value or with a raised
      exception; every call is appended to a log.  Logging through
      [logger] has no effect on any returned value and is left out. *)

From stdpp Require Import base gmap strings list.
From Stdlib Require Import ZArith Ascii String List Bool Lia SpecFloat DecimalString.
Import ListNotations.
Local Open Scope string_scope.

(** ** Python floats *)

Module PyFloat.

Definition float : Type := spec_float.

Definition prec : Z := 53.
Definition emax : Z := 1024.

(** [float(z)] for an integer [z] (exact below 2^53). *)
Definition of_Z (z : Z) : float := binary_normalize prec emax z 0 false.

(** A decimal literal [n/d], correctly rounded. *)
Definition of_ratio (n d : Z) : float :=
  SFdiv prec emax (of_Z n) (of_Z d).

Definition zero : float := S754_zero false.      (* 0.0 *)
Definition half : float := of_ratio 5 10.        (* 0.5 *)

(** [a >= b], [a > b] *)
Definition ge (a b : float) : bool := SFleb b a.
Definition gt (a b : float) : bool := SFltb b a.

(** The builtin [max(a, b)]: the first argument is kept unless the
    second is strictly greater. *)
Definition max (a b : float) : float := if gt b a then b else a.

Definition div (a b : float) : float := SFdiv prec emax a b.
Definition mul (a b : float) : float := SFmul prec emax a b.

Definition is_nan (a : float) : bool :=
  match a with S754_nan => true | _ => false end.

(** Decimal digits of a natural number, as [str(n)] prints them. *)
Definition digits (n : N) : string := NilZero.string_of_uint (N.to_uint n).

(** [n / d] rounded to the nearest integer, ties to even ([d > 0]). *)
Definition round_half_even (n d : Z) : Z :=
  let q := (n / d)%Z in
  let r := (n mod d)%Z in
  if (2 * r <? d)%Z then q
  else if (d <? 2 * r)%Z then (q + 1)%Z
  else if Z.even q then q else (q + 1)%Z.

(** [format(x, '.1f')]: the exact value of [x] rounded to one decimal
    place, ties to even; the sign of a negative zero is kept. *)
Definition format_1f (x : float) : string :=
  match x with
  | S754_nan => "nan"
  | S754_infinity s => if s then "-inf" else "inf"
  | S754_zero s => if s then "-0.0" else "0.0"
  | S754_finite s m e =>
      let tenths :=
        if (0 <=? e)%Z then (10 * Zpos m * 2 ^ e)%Z
        else round_half_even (10 * Zpos m) (2 ^ (- e)) in
      (if s then "-" else "") ++
      digits (Z.to_N (tenths / 10)) ++ "." ++ digits (Z.to_N (tenths mod 10))
  end.

(** [format(x, '.1%')]: [x] is first multiplied by 100 as a float. *)
Definition format_1pct (x : float) : string :=
  format_1f (mul x (of_Z 100)) ++ "%".

End PyFloat.

(** ** Python strings *)

Module PyStr.

(** [c.lower()] on one ASCII character. *)
Definition lower_ascii (c : ascii) : ascii :=
  let n := nat_of_ascii c in
  if (65 <=? n)%nat && (n <=? 90)%nat then ascii_of_nat (n + 32) else c.

Fixpoint lower (s : string) : string :=
  match s with
  | EmptyString => EmptyString
  | String c s' => String (lower_ascii c) (lower s')
  end.

Fixpoint startswith (s p : string) : bool :=
  match p, s with
  | EmptyString, _ => true
  | String _ _, EmptyString => false
  | String a p', String b s' => Ascii.eqb a b && startswith s' p'
  end.

(** [needle in hay] *)
Fixpoint contains (hay needle : string) : bool :=
  startswith hay needle ||
  match hay with
  | EmptyString => false
  | String _ hay' => contains hay' needle
  end.

(** [x or d] for an optional string: [None] and the empty string are
    falsy. *)
Definition or_else (x : option string) (d : string) : string :=
  match x with
  | Some (String c s) => String c s
  | Some EmptyString => d
  | None => d
  end.

(** [bool(x)] for an optional string. *)
Definition truthy (x : option string) : bool :=
  match x with
  | Some (String _ _) => true
  | _ => false
  end.

(** [str(x)] as an f-string prints an optional string. *)
Definition str (x : option string) : string := default "None" x.

(** [', '.join(l)] and friends. *)
Fixpoint join (sep : string) (l : list string) : string :=
  match l with
  | [] => ""
  | [x] => x
  | x :: l' => x ++ sep ++ join sep l'
  end.

(** [s.split(',')[1]] for a string with a comma: what stands between
    the first comma and the next. *)
Fixpoint until_comma (s : string) : string :=
  match s with
  | EmptyString => EmptyString
  | String c s' => if Ascii.eqb c "," then EmptyString else String c (until_comma s')
  end.

Fixpoint after_comma (s : string) : option string :=
  match s with
  | EmptyString => None
  | String c s' => if Ascii.eqb c "," then Some s' else after_comma s'
  end.

(** The double quote and the newline character. *)
Definition dq : string := String (ascii_of_nat 34) EmptyString.
Definition nl : string := String (ascii_of_nat 10) EmptyString.

(** [json.dumps(l)] for a list of plain ASCII names. *)
Definition json_dumps (l : list string) : string :=
  "[" ++ join ", " (map (fun x => dq ++ x ++ dq) l) ++ "]".

End PyStr.

(** ** datetime *)

Module PyTime.

Record datetime := mkDatetime {
  year : nat; month : nat; day : nat;
  hour : nat; minute : nat; second : nat
}.

Definition pad (width : nat) (n : nat) : string :=
  let d := PyFloat.digits (N.of_nat n) in
  String.concat "" (repeat "0" (width - String.length d)) ++ d.

(** [t.strftime('%Y-%m-%d %H:%M:%S')]; the C library prints the year
    without padding. *)
Definition strftime (t : datetime) : string :=
  PyFloat.digits (N.of_nat (year t)) ++ "-" ++ pad 2 (month t) ++ "-" ++ pad 2 (day t) ++ " " ++
  pad 2 (hour t) ++ ":" ++ pad 2 (minute t) ++ ":" ++ pad 2 (second t).

End PyTime.

(** ** ppe_detector.py *)

Module Detector.
Import PyFloat.

(** schemas.PPEDetectionResult *)
Record PPEDetectionResult := mkResult {
  helmet_detected : bool;
  mask_detected : bool;
  gloves_detected : bool;
  jacket_detected : bool;
  helmet_confidence : float;
  mask_confidence : float;
  gloves_confidence : float;
  jacket_confidence : float;
  is_compliant : bool;
  compliance_score : float
}.

(** [PPEDetectionResult()]: the field defaults. *)
Definition default_result : PPEDetectionResult :=
  mkResult false false false false zero zero zero zero false zero.

(** The keys of [ppe_classes] and [confidence_thresholds]. *)
Inductive ppe_type := Helmet | Mask | Gloves | Jacket.

#[global] Instance ppe_type_eq_dec : EqDecision ppe_type.
Proof. solve_decision. Defined.

(** [self.ppe_classes], in insertion order. *)
Definition ppe_classes : list (ppe_type * list string) :=
  [ (Helmet, ["helmet"; "hard_hat"; "safety_helmet"]);
    (Mask,   ["mask"; "face_mask"; "respirator"; "n95"]);
    (Gloves, ["gloves"; "safety_gloves"; "work_gloves"]);
    (Jacket, ["jacket"; "safety_jacket"; "high_visibility"; "hi_vis"; "vest"]) ].

(** [self.confidence_thresholds] *)
Definition confidence_thresholds (t : ppe_type) : float :=
  match t with
  | Helmet => half
  | Mask => half
  | Gloves => half
  | Jacket => half
  end.

(** One element of [roboflow_data['predictions']]: a dict read with
    [.get('class', '')] and [.get('confidence', 0.0)]. *)
Record prediction := mkPrediction {
  p_class : option string;
  p_confidence : option float
}.

Definition get_class (p : prediction) : string := default "" (p_class p).
Definition get_confidence (p : prediction) : float :=
  default zero (p_confidence p).

Definition _update_ppe_result (result : PPEDetectionResult) (t : ppe_type)
    (confidence : float) : PPEDetectionResult :=
  match t with
  | Helmet =>
      mkResult true (mask_detected result) (gloves_detected result)
        (jacket_detected result)
        (max (helmet_confidence result) confidence)
        (mask_confidence result) (gloves_confidence result)
        (jacket_confidence result)
        (is_compliant result) (compliance_score result)
  | Mask =>
      mkResult (helmet_detected result) true (gloves_detected result)
        (jacket_detected result)
        (helmet_confidence result)
        (max (mask_confidence result) confidence)
        (gloves_confidence result) (jacket_confidence result)
        (is_compliant result) (compliance_score result)
  | Gloves =>
      mkResult (helmet_detected result) (mask_detected result) true
        (jacket_detected result)
        (helmet_confidence result) (mask_confidence result)
        (max (gloves_confidence result) confidence)
        (jacket_confidence result)
        (is_compliant result) (compliance_score result)
  | Jacket =>
      mkResult (helmet_detected result) (mask_detected result)
        (gloves_detected result) true
        (helmet_confidence result) (mask_confidence result)
        (gloves_confidence result)
        (max (jacket_confidence result) confidence)
        (is_compliant result) (compliance_score result)
  end.

(** [detected_ppe], the list built by the four [if]s. *)
Definition detected_ppe (result : PPEDetectionResult) : list string :=
  (if helmet_detected result then ["helmet"] else []) ++
  (if mask_detected result then ["mask"] else []) ++
  (if gloves_detected result then ["gloves"] else []) ++
  (if jacket_detected result then ["jacket"] else []).

Definition required_ppe : list string :=
  ["helmet"; "mask"; "gloves"; "jacket"].

(** [len(a) / len(b) * 100]: true division of two ints, then a float
    product with the int 100. *)
Definition score_of (n d : nat) : float :=
  mul (div (of_Z (Z.of_nat n)) (of_Z (Z.of_nat d))) (of_Z 100).

Definition _calculate_compliance (result : PPEDetectionResult)
    : PPEDetectionResult :=
  let score :=
    score_of (List.length (detected_ppe result)) (List.length required_ppe) in
  mkResult (helmet_detected result) (mask_detected result)
    (gloves_detected result) (jacket_detected result)
    (helmet_confidence result) (mask_confidence result)
    (gloves_confidence result) (jacket_confidence result)
    (ge score (of_Z 75)) score.

(** [any(variant in class_name for variant in class_variants)] *)
Definition any_variant (class_name : string) (class_variants : list string)
    : bool :=
  existsb (fun variant => PyStr.contains class_name variant) class_variants.

(** The body of the inner [for] loop, for one entry of [ppe_classes]. *)
Definition match_entry (class_name : string) (confidence : float)
    (result : PPEDetectionResult) (entry : ppe_type * list string)
    : PPEDetectionResult :=
  let '(t, class_variants) := entry in
  if any_variant class_name class_variants then
    if ge confidence (confidence_thresholds t) then
      _update_ppe_result result t confidence
    else result
  else result.

(** The body of the outer [for] loop, for one prediction. *)
Definition process_prediction (result : PPEDetectionResult)
    (p : prediction) : PPEDetectionResult :=
  let class_name := PyStr.lower (get_class p) in
  let confidence := get_confidence p in
  fold_left (match_entry class_name confidence) ppe_classes result.

(** The outer [for] loop of [_process_roboflow_response]. *)
Definition run (predictions : list prediction) (r : PPEDetectionResult) :=
  fold_left process_prediction predictions r.

(** [roboflow_data] is seen through its ['predictions'] key:
    [None] when the key is missing. *)
Definition _process_roboflow_response
    (roboflow_data : option (list prediction)) : PPEDetectionResult :=
  let result := default_result in
  match roboflow_data with
  | None => result
  | Some predictions =>
      let result := run predictions result in
      _calculate_compliance result
  end.

Definition _get_missing_items (result : PPEDetectionResult) : list string :=
  (if helmet_detected result then [] else ["helmet"]) ++
  (if mask_detected result then [] else ["mask"]) ++
  (if gloves_detected result then [] else ["gloves"]) ++
  (if jacket_detected result then [] else ["jacket"]).

(** [ppe_classes[t]] *)
Definition class_variants_of (t : ppe_type) : list string :=
  default [] (snd <$> List.find (fun e => bool_decide (fst e = t)) ppe_classes).

(** The label of a detection matches category [t]: some synonym of the
    category is a substring of the lower-cased label. *)
Definition label_matches (t : ppe_type) (label : string) : bool :=
  any_variant (PyStr.lower label) (class_variants_of t).

(** Prediction [p] is accepted into category [t]. *)
Definition accepted (t : ppe_type) (p : prediction) : bool :=
  label_matches t (get_class p) &&
  ge (get_confidence p) (confidence_thresholds t).

(** Field access by category. *)
Definition detected (t : ppe_type) (r : PPEDetectionResult) : bool :=
  match t with
  | Helmet => helmet_detected r
  | Mask => mask_detected r
  | Gloves => gloves_detected r
  | Jacket => jacket_detected r
  end.

Definition confidence (t : ppe_type) (r : PPEDetectionResult) : float :=
  match t with
  | Helmet => helmet_confidence r
  | Mask => mask_confidence r
  | Gloves => gloves_confidence r
  | Jacket => jacket_confidence r
  end.

(** The slot invariant of the normalizer: an undetected category keeps
    the default confidence, a detected one has reached the threshold. *)
Definition slot_ok (t : ppe_type) (r : PPEDetectionResult) : Prop :=
  if detected t r then SFleb half (confidence t r) = true
  else confidence t r = zero.

(** The scenario of the specification: a hard hat, an N95 mask and safety
    gloves, no jacket. *)
Definition scenario : list prediction :=
  [ mkPrediction (Some "hard_hat") (Some (of_ratio 9 10));
    mkPrediction (Some "n95") (Some (of_ratio 8 10));
    mkPrediction (Some "safety_gloves") (Some (of_ratio 6 10)) ].

End Detector.

(** ** models.py and schemas.py *)

Module Models.
Import PyFloat PyTime.

(** models.PPEComplianceRecord, the columns the services read or write.
    [timestamp] has a column default and the detection columns are always
    given, so they are not optional; the string columns are nullable. *)
Record PPEComplianceRecord := mkRecord {
  id : Z;
  worker_id : string;
  worker_name : option string;
  timestamp : datetime;
  helmet_detected : bool;
  mask_detected : bool;
  gloves_detected : bool;
  jacket_detected : bool;
  helmet_confidence : float;
  mask_confidence : float;
  gloves_confidence : float;
  jacket_confidence : float;
  is_compliant : bool;
  compliance_score : float;
  location : option string;
  department : option string;
  shift : option string;
  alert_sent : bool;
  alert_channels : option string
}.

Definition set_department (d : option string) (r : PPEComplianceRecord) :=
  mkRecord (id r) (worker_id r) (worker_name r) (timestamp r)
    (helmet_detected r) (mask_detected r) (gloves_detected r)
    (jacket_detected r) (helmet_confidence r) (mask_confidence r)
    (gloves_confidence r) (jacket_confidence r) (is_compliant r)
    (compliance_score r) (location r) d (shift r)
    (alert_sent r) (alert_channels r).

Definition set_location (l : option string) (r : PPEComplianceRecord) :=
  mkRecord (id r) (worker_id r) (worker_name r) (timestamp r)
    (helmet_detected r) (mask_detected r) (gloves_detected r)
    (jacket_detected r) (helmet_confidence r) (mask_confidence r)
    (gloves_confidence r) (jacket_confidence r) (is_compliant r)
    (compliance_score r) l (department r) (shift r)
    (alert_sent r) (alert_channels r).

Definition set_shift (s : option string) (r : PPEComplianceRecord) :=
  mkRecord (id r) (worker_id r) (worker_name r) (timestamp r)
    (helmet_detected r) (mask_detected r) (gloves_detected r)
    (jacket_detected r) (helmet_confidence r) (mask_confidence r)
    (gloves_confidence r) (jacket_confidence r) (is_compliant r)
    (compliance_score r) (location r) (department r) s
    (alert_sent r) (alert_channels r).

(** [record.alert_sent = True; record.alert_channels = channels] *)
Definition set_alert (channels : string) (r : PPEComplianceRecord) :=
  mkRecord (id r) (worker_id r) (worker_name r) (timestamp r)
    (helmet_detected r) (mask_detected r) (gloves_detected r)
    (jacket_detected r) (helmet_confidence r) (mask_confidence r)
    (gloves_confidence r) (jacket_confidence r) (is_compliant r)
    (compliance_score r) (location r) (department r) (shift r)
    true (Some channels).

(** The row the database stores for a record built by the services: it
    assigns the key and the [timestamp] default; [alert_sent] and
    [alert_channels] take their defaults. *)
Definition stored (draft : PPEComplianceRecord) (key : Z) (now : datetime) :=
  mkRecord key (worker_id draft) (worker_name draft) now
    (helmet_detected draft) (mask_detected draft) (gloves_detected draft)
    (jacket_detected draft) (helmet_confidence draft) (mask_confidence draft)
    (gloves_confidence draft) (jacket_confidence draft) (is_compliant draft)
    (compliance_score draft) (location draft) (department draft) (shift draft)
    false None.

(** models.Worker, the columns the services read or write. *)
Record Worker := mkWorker {
  w_worker_id : string;
  w_name : option string;
  w_department : option string;
  w_shift : option string
}.

(** models.ComplianceAlert *)
Record ComplianceAlert := mkAlert {
  a_record_id : Z;
  a_worker_id : string;
  a_alert_type : string;
  a_message : string;
  a_channels_sent : string
}.

(** schemas.ComplianceCheckRequest *)
Record ComplianceCheckRequest := mkRequest {
  rq_worker_id : string;
  rq_worker_name : option string;
  rq_location : option string;
  rq_department : option string;
  rq_shift : option string;
  rq_image_url : option string;
  rq_image_base64 : option string
}.

(** schemas.ComplianceCheckResponse *)
Record ComplianceCheckResponse := mkResponse {
  success : bool;
  message : string;
  data : option Detector.PPEDetectionResult;
  record_id : option Z;
  rs_alert_sent : bool
}.

(** One element of the list [_create_slack_blocks] builds: a header with
    plain text, a section of mrkdwn fields, a section with one mrkdwn
    text, or a divider. *)
Inductive block :=
| Header (plain_text : string)
| SectionFields (mrkdwn_fields : list string)
| SectionText (mrkdwn : string)
| Divider.

(** sendgrid.helpers.mail.Mail, as the constructor call fills it. *)
Record Mail := mkMail {
  from_email : string;
  to_emails : list string;
  subject : string;
  html_content : string;
  plain_text_content : string
}.

(** config.Settings, the variables the services read.  Each is a string
    taken from the process environment, empty when unset. *)
Record Settings := mkSettings {
  ROBOFLOW_API_KEY : string;
  ROBOFLOW_PROJECT_ID : string;
  ROBOFLOW_MODEL_VERSION : string;
  SLACK_BOT_TOKEN : string;
  SLACK_CHANNEL_ID : string;
  TWILIO_ACCOUNT_SID : string;
  TWILIO_AUTH_TOKEN : string;
  TWILIO_WHATSAPP_NUMBER : string;
  SENDGRID_API_KEY : string;
  FROM_EMAIL : string
}.

End Models.

(** ** Effects: exceptions and calls to the collaborators *)

Module Effects.
Import PyTime Models.

(** An instance of [Exception], which is what [except Exception]
    catches; [SlackApiError] is the subclass [send_slack_alert] names. *)
Inductive exn :=
| SlackApiError (error : string)
| Exception (msg : string).

(** The calls that leave the process, and one marker for the entry into
    [_send_compliance_alerts]. *)
Inductive call :=
| SlackPostMessage (channel text : string) (blocks : list block)
| SendGridSend (mail : Mail)
| TwilioCreate (body from_ to : string)
| HttpGet (url api_key image : string)
| HttpPost (url api_key image : string)
| DbFirstWorker (worker_id : string)
| DbInsertWorker (w : Worker)
| DbInsertRecord (r : PPEComplianceRecord)
| DbCommitAlert (a : ComplianceAlert) (r : PPEComplianceRecord)
| EnterSendComplianceAlerts.

Definition history : Type := list call.

(** The collaborators.  Each answers a call, given everything that was
    called before, with a value or with a raised exception. *)
Record Env := mkEnv {
  settings : Settings;
  (** [WebClient.chat_postMessage]: the response's ['ts'] *)
  slack_chat_postMessage :
    history -> string -> string -> list block -> exn + string;
  (** [SendGridAPIClient.send]: the response's [status_code] *)
  sendgrid_send : history -> Mail -> exn + Z;
  (** [twilio_client.messages.create]: the message's [sid] *)
  twilio_messages_create :
    history -> string -> string -> string -> exn + string;
  (** [requests.get], [raise_for_status] and [json]: the value under
      the key ['predictions'], if the key is there *)
  requests_get :
    history -> string -> string -> string ->
    exn + option (list Detector.prediction);
  requests_post :
    history -> string -> string -> string ->
    exn + option (list Detector.prediction);
  (** [db.query(Worker).filter(...).first()] *)
  db_first_worker : history -> string -> exn + option Worker;
  (** [db.add], [db.commit], [db.refresh] *)
  db_insert_worker : history -> Worker -> exn + Worker;
  (** the same for a record: the key and the timestamp the row got *)
  db_insert_record : history -> PPEComplianceRecord -> exn + Z * datetime;
  db_commit_alert :
    history -> ComplianceAlert -> PPEComplianceRecord -> exn + unit
}.

(** A computation reads the history, returns or raises, and extends the
    history. *)
Definition M (A : Type) : Type := history -> (exn + A) * history.

Definition ret {A} (a : A) : M A := fun h => (inr a, h).

Definition raise {A} (e : exn) : M A := fun h => (inl e, h).

Definition bind {A B} (m : M A) (k : A -> M B) : M B :=
  fun h =>
    match m h with
    | (inr a, h') => k a h'
    | (inl e, h') => (inl e, h')
    end.

(** [try: body except Exception as e: handler] *)
Definition try_except {A} (body : M A) (handler : exn -> M A) : M A :=
  fun h =>
    match body h with
    | (inl e, h') => handler e h'
    | (inr a, h') => (inr a, h')
    end.

(** [str(e)] *)
Definition exn_str (e : exn) : string :=
  match e with
  | SlackApiError error => error
  | Exception msg => msg
  end.

(** The marker [c] is appended to the history. *)
Definition mark (c : call) : M unit := fun h => (inr tt, (h ++ [c])%list).

(** A call [c] whose answer the collaborator gives from the history. *)
Definition perform {A} (c : call) (answer : history -> exn + A) : M A :=
  fun h => (answer h, (h ++ [c])%list).

(** [for x in l: acc = body x acc] *)
Fixpoint for_each {A S} (l : list A) (body : A -> S -> M S) (acc : S) : M S :=
  match l with
  | [] => ret acc
  | x :: l' => bind (body x acc) (for_each l' body)
  end.

(** Every call a computation adds to the history satisfies [P]. *)
Definition emits (P : call -> Prop) {A} (m : M A) : Prop :=
  forall h, exists r evs, m h = (r, (h ++ evs)%list) /\ Forall P evs.

(** A call other than the entry into [_send_compliance_alerts]. *)
Definition quiet (c : call) : Prop := c <> EnterSendComplianceAlerts.

Definition any_call (c : call) : Prop := True.

(** A computation never raises. *)
Definition returns {A} (m : M A) : Prop :=
  forall h, exists a h', m h = (inr a, h').


#[global] Instance M_ret : MRet M := @ret.
#[global] Instance M_bind : MBind M := fun A B k m => bind m k.

End Effects.

(** ** alert_service.py *)

Module Alerts.
Import PyFloat PyStr PyTime Models Effects.

(** The three clients of an [AlertService]; each holds its credentials
    and is [None] when they are missing. *)
Record AlertService := mkAlertService {
  slack_client : option string;
  twilio_client : option (string * string);
  sendgrid_client : option string
}.

Definition nonempty (s : string) : bool :=
  match s with EmptyString => false | _ => true end.

(** [AlertService.__init__] *)
Definition __init__ (st : Settings) : AlertService :=
  mkAlertService
    (if nonempty (SLACK_BOT_TOKEN st) then Some (SLACK_BOT_TOKEN st) else None)
    (if nonempty (TWILIO_ACCOUNT_SID st) && nonempty (TWILIO_AUTH_TOKEN st)
     then Some (TWILIO_ACCOUNT_SID st, TWILIO_AUTH_TOKEN st) else None)
    (if nonempty (SENDGRID_API_KEY st) then Some (SENDGRID_API_KEY st) else None).

Definition ppe_line (glyph name : string) (detected : bool) (conf : float)
    : string :=
  if detected then glyph ++ " " ++ name ++ ": ✅ (" ++ format_1pct conf ++ ")"
  else glyph ++ " " ++ name ++ ": ❌".

Definition _create_slack_blocks (message : string)
    (record : PPEComplianceRecord) : list block :=
  let color := if negb (is_compliant record) then "#ff0000" else "#00ff00" in
  let blocks :=
    [ Header "🚨 PPE Compliance Alert";
      SectionFields
        [ "*Worker:* " ++ str (worker_name record) ++ nl ++
          "*ID:* " ++ worker_id record;
          "*Department:* " ++ or_else (department record) "Unknown" ++ nl ++
          "*Location:* " ++ or_else (location record) "Unknown";
          "*Time:* " ++ strftime (timestamp record) ++ nl ++
          "*Shift:* " ++ or_else (shift record) "Unknown";
          "*Compliance Score:* " ++ format_1f (compliance_score record) ++
          "%" ++ nl ++ "*Status:* " ++
          (if is_compliant record then "✅ Compliant" else "❌ Non-Compliant") ] ] in
  let ppe_details :=
    [ ppe_line "🪖" "Helmet" (helmet_detected record) (helmet_confidence record);
      ppe_line "😷" "Mask" (mask_detected record) (mask_confidence record);
      ppe_line "🧤" "Gloves" (gloves_detected record) (gloves_confidence record);
      ppe_line "🦺" "Jacket" (jacket_detected record) (jacket_confidence record) ] in
  blocks ++
  [ SectionText ("*PPE Detection Results:*" ++ nl ++ join nl ppe_details) ] ++
  [ Divider ].

Definition span_detected : string :=
  "<span class=" ++ dq ++ "compliant" ++ dq ++ ">✅ Detected</span>".
Definition span_missing : string :=
  "<span class=" ++ dq ++ "non-compliant" ++ dq ++ ">❌ Missing</span>".

(** The lines of the f-string of [_create_email_html]. *)
Definition email_html_lines (record : PPEComplianceRecord) : list string :=
  let status_color := if is_compliant record then "#28a745" else "#dc3545" in
  let status_text :=
    if is_compliant record then "COMPLIANT" else "NON-COMPLIANT" in
  [
    "";
    "        <!DOCTYPE html>";
    "        <html>";
    "        <head>";
    "            <style>";
    "                body { font-family: Arial, sans-serif; margin: 0; padding: 20px; }";
    "                .container { max-width: 600px; margin: 0 auto; }";
    "                .header { background-color: " ++ status_color ++
      "; color: white; padding: 20px; text-align: center; }";
    "                .content { padding: 20px; background-color: #f8f9fa; }";
    "                .details { background-color: white; padding: 15px; margin: 10px 0; border-radius: 5px; }";
    "                .ppe-item { margin: 5px 0; }";
    "                .compliant { color: #28a745; }";
    "                .non-compliant { color: #dc3545; }";
    "            </style>";
    "        </head>";
    "        <body>";
    "            <div class=" ++ dq ++ "container" ++ dq ++ ">";
    "                <div class=" ++ dq ++ "header" ++ dq ++ ">";
    "                    <h1>🚨 PPE Compliance Alert</h1>";
    "                    <h2>Status: " ++ status_text ++ "</h2>";
    "                </div>";
    "                <div class=" ++ dq ++ "content" ++ dq ++ ">";
    "                    <div class=" ++ dq ++ "details" ++ dq ++ ">";
    "                        <h3>Worker Information</h3>";
    "                        <p><strong>Name:</strong> " ++
      str (worker_name record) ++ "</p>";
    "                        <p><strong>ID:</strong> " ++ worker_id record ++
      "</p>";
    "                        <p><strong>Department:</strong> " ++
      or_else (department record) "Unknown" ++ "</p>";
    "                        <p><strong>Location:</strong> " ++
      or_else (location record) "Unknown" ++ "</p>";
    "                        <p><strong>Shift:</strong> " ++
      or_else (shift record) "Unknown" ++ "</p>";
    "                        <p><strong>Time:</strong> " ++
      strftime (timestamp record) ++ "</p>";
    "                    </div>";
    "                    ";
    "                    <div class=" ++ dq ++ "details" ++ dq ++ ">";
    "                        <h3>Compliance Score: " ++
      format_1f (compliance_score record) ++ "%</h3>";
    "                    </div>";
    "                    ";
    "                    <div class=" ++ dq ++ "details" ++ dq ++ ">";
    "                        <h3>PPE Detection Results</h3>";
    "                        <div class=" ++ dq ++ "ppe-item" ++ dq ++ ">";
    "                            🪖 Helmet: " ++
      (if helmet_detected record then span_detected else span_missing);
    "                            " ++
      (if helmet_detected record then " (Confidence: " ++
      format_1pct (helmet_confidence record) ++ ")" else "");
    "                        </div>";
    "                        <div class=" ++ dq ++ "ppe-item" ++ dq ++ ">";
    "                            😷 Mask: " ++
      (if mask_detected record then span_detected else span_missing);
    "                            " ++
      (if mask_detected record then " (Confidence: " ++
      format_1pct (mask_confidence record) ++ ")" else "");
    "                        </div>";
    "                        <div class=" ++ dq ++ "ppe-item" ++ dq ++ ">";
    "                            🧤 Gloves: " ++
      (if gloves_detected record then span_detected else span_missing);
    "                            " ++
      (if gloves_detected record then " (Confidence: " ++
      format_1pct (gloves_confidence record) ++ ")" else "");
    "                        </div>";
    "                        <div class=" ++ dq ++ "ppe-item" ++ dq ++ ">";
    "                            🦺 Jacket: " ++
      (if jacket_detected record then span_detected else span_missing);
    "                            " ++
      (if jacket_detected record then " (Confidence: " ++
      format_1pct (jacket_confidence record) ++ ")" else "");
    "                        </div>";
    "                    </div>";
    "                </div>";
    "            </div>";
    "        </body>";
    "        </html>";
    "        " ].

Definition _create_email_html (message : string)
    (record : PPEComplianceRecord) : string :=
  join nl (email_html_lines record).

(** The lines of the f-string of [_create_email_text]. *)
Definition email_text_lines (record : PPEComplianceRecord) : list string :=
  [
    "";
    "PPE COMPLIANCE ALERT";
    "===================";
    "";
    "Worker: " ++ str (worker_name record) ++ " (ID: " ++ worker_id record ++
      ")";
    "Department: " ++ or_else (department record) "Unknown";
    "Location: " ++ or_else (location record) "Unknown";
    "Shift: " ++ or_else (shift record) "Unknown";
    "Time: " ++ strftime (timestamp record);
    "";
    "Compliance Score: " ++ format_1f (compliance_score record) ++ "%";
    "Status: " ++
      (if is_compliant record then "COMPLIANT" else "NON-COMPLIANT");
    "";
    "PPE Detection Results:";
    "- Helmet: " ++
      (if helmet_detected record then "✅ Detected" else "❌ Missing") ++ " " ++
      (if helmet_detected record then "(" ++
      format_1pct (helmet_confidence record) ++ ")" else "");
    "- Mask: " ++
      (if mask_detected record then "✅ Detected" else "❌ Missing") ++ " " ++
      (if mask_detected record then "(" ++
      format_1pct (mask_confidence record) ++ ")" else "");
    "- Gloves: " ++
      (if gloves_detected record then "✅ Detected" else "❌ Missing") ++ " " ++
      (if gloves_detected record then "(" ++
      format_1pct (gloves_confidence record) ++ ")" else "");
    "- Jacket: " ++
      (if jacket_detected record then "✅ Detected" else "❌ Missing") ++ " " ++
      (if jacket_detected record then "(" ++
      format_1pct (jacket_confidence record) ++ ")" else "");
    "";
    "Please take appropriate action to ensure worker safety compliance.";
    "        " ].

Definition _create_email_text (message : string)
    (record : PPEComplianceRecord) : string :=
  join nl (email_text_lines record).

(** The lines of the f-string [whatsapp_message] of
    [send_whatsapp_alert]. *)
Definition whatsapp_lines (record : PPEComplianceRecord) : list string :=
  [
    "";
    "🚨 *PPE Compliance Alert*";
    "";
    "*Worker:* " ++ str (worker_name record);
    "*ID:* " ++ worker_id record;
    "*Department:* " ++ or_else (department record) "Unknown";
    "*Location:* " ++ or_else (location record) "Unknown";
    "*Time:* " ++ strftime (timestamp record);
    "";
    "*Compliance Score:* " ++ format_1f (compliance_score record) ++ "%";
    "*Status:* " ++
      (if is_compliant record then "✅ Compliant" else "❌ Non-Compliant");
    "";
    "*PPE Detection:*";
    "🪖 Helmet: " ++ (if helmet_detected record then "✅" else "❌");
    "😷 Mask: " ++ (if mask_detected record then "✅" else "❌");
    "🧤 Gloves: " ++ (if gloves_detected record then "✅" else "❌");
    "🦺 Jacket: " ++ (if jacket_detected record then "✅" else "❌");
    "";
    "Please take immediate action if non-compliant.";
    "            " ].

Definition whatsapp_message (record : PPEComplianceRecord) : string :=
  join nl (whatsapp_lines record).

(** The mrkdwn texts of the blocks, in order. *)
Definition block_texts (b : block) : list string :=
  match b with
  | Header t => [t]
  | SectionFields fields => fields
  | SectionText t => [t]
  | Divider => []
  end.

(** The department tables of the two recipient resolvers. *)
Definition email_dept_recipients : gmap string (list string) :=
  list_to_map
    [ ("production", ["production-manager@yourcompany.com"]);
      ("maintenance", ["maintenance-manager@yourcompany.com"]);
      ("warehouse", ["warehouse-manager@yourcompany.com"]) ].

Definition whatsapp_dept_recipients : gmap string (list string) :=
  list_to_map
    [ ("production", ["+1234567892"]);
      ("maintenance", ["+1234567893"]);
      ("warehouse", ["+1234567894"]) ].

(** The keys of both tables. *)
Definition department_keys : list string :=
  ["production"; "maintenance"; "warehouse"].

Definition email_default_recipients : list string :=
  [ "safety@yourcompany.com"; "supervisor@yourcompany.com" ].

Definition whatsapp_default_recipients : list string :=
  [ "+1234567890"; "+1234567891" ].

Definition _get_alert_recipients (record : PPEComplianceRecord)
    : list string :=
  let default_recipients := email_default_recipients in
  if truthy (department record) then
    default_recipients ++
    default [] (email_dept_recipients !! lower (str (department record)))
  else default_recipients.

Definition _get_whatsapp_recipients (record : PPEComplianceRecord)
    : list string :=
  let default_recipients := whatsapp_default_recipients in
  if truthy (department record) then
    default_recipients ++
    default [] (whatsapp_dept_recipients !! lower (str (department record)))
  else default_recipients.

(** Some delivery went through; the number of deliveries that did. *)
Definition any_true (l : list bool) : bool := existsb (fun ok => ok) l.
Definition successes (l : list bool) : nat :=
  List.length (List.filter (fun ok : bool => ok) l).

Section Service.
Variable env : Env.

(** Both handlers of [send_slack_alert] log the error and return
    [False]. *)
Definition send_slack_alert (self : AlertService) (message : string)
    (record : PPEComplianceRecord) : M bool :=
  if negb (bool_decide (is_Some (slack_client self))) ||
     negb (nonempty (SLACK_CHANNEL_ID (settings env)))
  then ret false
  else
    try_except
      (let blocks := _create_slack_blocks message record in
       let channel := SLACK_CHANNEL_ID (settings env) in
       response ← perform (SlackPostMessage channel message blocks)
         (fun h => slack_chat_postMessage env h channel message blocks);
       ret true)
      (fun e =>
         match e with
         | SlackApiError _ => ret false
         | Exception _ => ret false
         end).

Definition send_email_alert (self : AlertService) (message : string)
    (record : PPEComplianceRecord) : M bool :=
  if negb (bool_decide (is_Some (sendgrid_client self))) then ret false
  else
    try_except
      (let subject :=
         "PPE Compliance Alert - " ++ str (worker_name record) ++
         " (" ++ worker_id record ++ ")" in
       let html_content := _create_email_html message record in
       let text_content := _create_email_text message record in
       let mail :=
         mkMail (FROM_EMAIL (settings env)) (_get_alert_recipients record)
           subject html_content text_content in
       status_code ← perform (SendGridSend mail)
         (fun h => sendgrid_send env h mail);
       if existsb (Z.eqb status_code) [200; 201; 202]%Z then ret true
       else ret false)
      (fun e => ret false).

(** One round of the loop over the recipients. *)
Definition whatsapp_send_one (whatsapp_message : string)
    (recipient : string) (success_count : nat) : M nat :=
  try_except
    (let from_ := TWILIO_WHATSAPP_NUMBER (settings env) in
     let to := "whatsapp:" ++ recipient in
     message_obj ← perform (TwilioCreate whatsapp_message from_ to)
       (fun h => twilio_messages_create env h whatsapp_message from_ to);
     ret (success_count + 1))
    (fun e => ret success_count).

(** [send_whatsapp_alert] from the point where [recipients] is bound. *)
Definition whatsapp_deliver (recipients : list string)
    (record : PPEComplianceRecord) : M bool :=
  match recipients with
  | [] => ret false
  | _ =>
      let whatsapp_message := whatsapp_message record in
      success_count ←
        for_each recipients (whatsapp_send_one whatsapp_message) 0;
      ret (0 <? success_count)%nat
  end.

Definition send_whatsapp_alert (self : AlertService) (message : string)
    (record : PPEComplianceRecord) : M bool :=
  if negb (bool_decide (is_Some (twilio_client self))) then ret false
  else
    try_except
      (let recipients := _get_whatsapp_recipients record in
       whatsapp_deliver recipients record)
      (fun e => ret false).

(** [x in channels] *)
Definition in_list (x : string) (channels : list string) : bool :=
  existsb (String.eqb x) channels.

Definition send_custom_alert (self : AlertService) (message : string)
    (channels : list string) (record : PPEComplianceRecord)
    : M (gmap string bool) :=
  let results : gmap string bool := ∅ in
  results ←
    (if in_list "slack" channels then
       b ← send_slack_alert self message record;
       ret (<["slack" := b]> results)
     else ret results);
  results ←
    (if in_list "email" channels then
       b ← send_email_alert self message record;
       ret (<["email" := b]> results)
     else ret results);
  results ←
    (if in_list "whatsapp" channels then
       b ← send_whatsapp_alert self message record;
       ret (<["whatsapp" := b]> results)
     else ret results);
  ret results.

(** The [Mail] that [send_email_alert] hands to SendGrid. *)
Definition alert_mail (message : string) (record : PPEComplianceRecord)
    : Mail :=
  mkMail (FROM_EMAIL (settings env)) (_get_alert_recipients record)
    ("PPE Compliance Alert - " ++ str (worker_name record) ++
     " (" ++ worker_id record ++ ")")
    (_create_email_html message record) (_create_email_text message record).

(** The call [send_whatsapp_alert] makes for one recipient. *)
Definition twilio_call (body recipient : string) : call :=
  TwilioCreate body (TWILIO_WHATSAPP_NUMBER (settings env))
    ("whatsapp:" ++ recipient).

(** Whether that call, made after the history [h], delivers. *)
Definition delivery_ok (h : history) (body recipient : string) : bool :=
  match twilio_messages_create env h body
          (TWILIO_WHATSAPP_NUMBER (settings env)) ("whatsapp:" ++ recipient)
  with
  | inr _ => true
  | inl _ => false
  end.

(** The outcomes of the deliveries to [recipients], one after the other
    from the history [h]. *)
Fixpoint deliveries (h : history) (body : string) (recipients : list string)
    : list bool :=
  match recipients with
  | [] => []
  | r :: rest =>
      delivery_ok h body r ::
      deliveries (h ++ [twilio_call body r])%list body rest
  end.

End Service.

(** An environment for examples: Slack and SendGrid are configured and
    answer, Twilio is configured, cannot reach the first default number
    and delivers to every other one; the database hands out key 1. *)
Definition example_settings : Settings :=
  mkSettings "key" "ppe" "1" "xoxb-token" "C012345" "AC123" "secret"
    "whatsapp:+14155238886" "SG.key" "safety@yourcompany.com".

Definition example_env : Env :=
  mkEnv example_settings
    (fun _ _ _ _ => inr "1700000000.000100")
    (fun _ _ => inr 202%Z)
    (fun _ _ _ to =>
       if String.eqb to "whatsapp:+1234567890"
       then inl (Exception "unreachable") else inr "SM1")
    (fun _ _ _ _ => inr (Some []))
    (fun _ _ _ _ => inr (Some []))
    (fun _ _ => inr None)
    (fun _ w => inr w)
    (fun _ _ => inr (1%Z, mkDatetime 2024 1 2 3 4 5))
    (fun _ _ _ => inr tt).

(** A stored record: helmet and gloves seen, department and location
    known, no shift. *)
Definition example_record : PPEComplianceRecord :=
  mkRecord 7 "W1" (Some "Ann") (mkDatetime 2024 1 2 3 4 5)
    true false true false
    (of_ratio 9 10) zero (of_ratio 6 10) zero
    false (of_Z 50) (Some "Dock") (Some "Production") None false None.

End Alerts.

(** ** compliance_service.py, with the detector's HTTP entry points *)

Module Compliance.
Import PyFloat PyStr PyTime Models Effects Alerts.

(** [a or b] for two optional strings. *)
Definition or_opt (a b : option string) : option string :=
  if truthy a then a else b.

Section Service.
Variable env : Env.

(** [PPEDetector.base_url] *)
Definition base_url : string :=
  "https://detect.roboflow.com/" ++ ROBOFLOW_PROJECT_ID (settings env) ++
  "/" ++ ROBOFLOW_MODEL_VERSION (settings env).

Definition detect_ppe_from_url (image_url : string)
    : M Detector.PPEDetectionResult :=
  try_except
    (let api_key := ROBOFLOW_API_KEY (settings env) in
     roboflow_data ← perform (HttpGet base_url api_key image_url)
       (fun h => requests_get env h base_url api_key image_url);
     ret (Detector._process_roboflow_response roboflow_data))
    (fun e => ret Detector.default_result).

Definition detect_ppe_from_base64 (image_base64 : string)
    : M Detector.PPEDetectionResult :=
  try_except
    (let image_base64 :=
       match after_comma image_base64 with
       | Some rest => until_comma rest
       | None => image_base64
       end in
     let api_key := ROBOFLOW_API_KEY (settings env) in
     roboflow_data ← perform (HttpPost base_url api_key image_base64)
       (fun h => requests_post env h base_url api_key image_base64);
     ret (Detector._process_roboflow_response roboflow_data))
    (fun e => ret Detector.default_result).

Definition _get_or_create_worker (request : ComplianceCheckRequest)
    : M Worker :=
  worker ← perform (DbFirstWorker (rq_worker_id request))
    (fun h => db_first_worker env h (rq_worker_id request));
  match worker with
  | Some worker => ret worker
  | None =>
      let worker :=
        mkWorker (rq_worker_id request)
          (Some (or_else (rq_worker_name request) "Unknown"))
          (Some (or_else (rq_department request) "Unknown"))
          (rq_shift request) in
      perform (DbInsertWorker worker) (fun h => db_insert_worker env h worker)
  end.

Definition _perform_ppe_detection (request : ComplianceCheckRequest)
    : M Detector.PPEDetectionResult :=
  if truthy (rq_image_url request) then
    detect_ppe_from_url (str (rq_image_url request))
  else if truthy (rq_image_base64 request) then
    detect_ppe_from_base64 (str (rq_image_base64 request))
  else ret Detector.default_result.

Definition _create_compliance_record (request : ComplianceCheckRequest)
    (detection_result : Detector.PPEDetectionResult) (worker : Worker)
    : M PPEComplianceRecord :=
  let draft (key : Z) (now : datetime) :=
    mkRecord key (rq_worker_id request) (w_name worker) now
      (Detector.helmet_detected detection_result)
      (Detector.mask_detected detection_result)
      (Detector.gloves_detected detection_result)
      (Detector.jacket_detected detection_result)
      (Detector.helmet_confidence detection_result)
      (Detector.mask_confidence detection_result)
      (Detector.gloves_confidence detection_result)
      (Detector.jacket_confidence detection_result)
      (Detector.is_compliant detection_result)
      (Detector.compliance_score detection_result)
      (rq_location request)
      (or_opt (rq_department request) (w_department worker))
      (or_opt (rq_shift request) (w_shift worker))
      false None in
  (* Before the insert the key and the timestamp are unset: they stand
     here as zeros and the database replaces them. *)
  let unsaved := draft 0%Z (mkDatetime 0 0 0 0 0 0) in
  row ← perform (DbInsertRecord unsaved)
    (fun h => db_insert_record env h unsaved);
  ret (stored unsaved (fst row) (snd row)).

Definition _send_compliance_alerts (record : PPEComplianceRecord)
    (detection_result : Detector.PPEDetectionResult) : M bool :=
  mark EnterSendComplianceAlerts;;
  try_except
    (let alert_service := __init__ (settings env) in
     let missing_items := Detector._get_missing_items detection_result in
     let message :=
       "PPE Non-Compliance Alert for " ++ str (worker_name record) ++
       " (ID: " ++ worker_id record ++ ")" ++ nl ++
       "Missing PPE: " ++ join ", " missing_items ++ nl ++
       "Compliance Score: " ++
       format_1f (Detector.compliance_score detection_result) ++ "%" ++ nl ++
       "Location: " ++ or_else (location record) "Unknown" ++ nl ++
       "Time: " ++ strftime (timestamp record) in
     let channels_used : list string := [] in
     sent ← send_slack_alert env alert_service message record;
     let channels_used :=
       if (sent : bool) then (channels_used ++ ["slack"])%list else channels_used in
     sent ← send_email_alert env alert_service message record;
     let channels_used :=
       if (sent : bool) then (channels_used ++ ["email"])%list else channels_used in
     sent ← send_whatsapp_alert env alert_service message record;
     let channels_used :=
       if (sent : bool) then (channels_used ++ ["whatsapp"])%list else channels_used in
     let alert :=
       mkAlert (id record) (worker_id record) "non_compliance" message
         (json_dumps channels_used) in
     let record := set_alert (json_dumps channels_used) record in
     perform (DbCommitAlert alert record)
       (fun h => db_commit_alert env h alert record);;
     ret (0 <? List.length channels_used)%nat)
    (fun e => ret false).

Definition check_compliance (request : ComplianceCheckRequest)
    : M ComplianceCheckResponse :=
  try_except
    (worker ← _get_or_create_worker request;
     detection_result ← _perform_ppe_detection request;
     record ← _create_compliance_record request detection_result worker;
     alert_sent ←
       (if negb (Detector.is_compliant detection_result) then
          _send_compliance_alerts record detection_result
        else ret false);
     ret (mkResponse true "Compliance check completed successfully"
            (Some detection_result) (Some (id record)) alert_sent))
    (fun e =>
       ret (mkResponse false ("Error during compliance check: " ++ exn_str e)
              None None false)).

End Service.

(** The example environment with a database that refuses the insert of a
    record, and a request with an image in which the detection service
    (which answers with no prediction) sees no equipment. *)
Definition locked_db_env : Env :=
  mkEnv (settings example_env)
    (slack_chat_postMessage example_env) (sendgrid_send example_env)
    (twilio_messages_create example_env)
    (requests_get example_env) (requests_post example_env)
    (db_first_worker example_env) (db_insert_worker example_env)
    (fun _ _ => inl (Exception "database is locked"))
    (db_commit_alert example_env).

Definition example_request : ComplianceCheckRequest :=
  mkRequest "W1" (Some "Ann") (Some "Dock") (Some "Production") None
    (Some "https://example.com/w1.jpg") None.

End Compliance.

(** ** ppe_detector.py: the summary helpers *)

Module DetectorMore.
Import PyFloat Detector.

(** [c] is the confidence of a prediction of [l] accepted into [t]. *)
Definition accepted_confidence (t : ppe_type) (l : list prediction)
    (c : float) : Prop :=
  exists p, In p l /\ accepted t p = true /\ get_confidence p = c.


Definition _get_recommendations (result : PPEDetectionResult) : list string :=
  let recommendations : list string := [] in
  let recommendations :=
    if negb (helmet_detected result) then
      (recommendations ++
       ["Please wear a safety helmet to protect your head from falling objects."])%list
    else recommendations in
  let recommendations :=
    if negb (mask_detected result) then
      (recommendations ++
       ["Please wear a face mask or respirator to protect against airborne hazards."])%list
    else recommendations in
  let recommendations :=
    if negb (gloves_detected result) then
      (recommendations ++
       ["Please wear safety gloves to protect your hands from cuts and chemicals."])%list
    else recommendations in
  let recommendations :=
    if negb (jacket_detected result) then
      (recommendations ++
       ["Please wear a high-visibility safety jacket for better visibility and protection."])%list
    else recommendations in
  if is_compliant result then
    (recommendations ++
     ["Great job! You are properly equipped with all required PPE."])%list
  else recommendations.

(** The last recommendation of a compliant result. *)
Definition praise : string :=
  "Great job! You are properly equipped with all required PPE.".

(** [get_detection_summary]: the dict it returns, as a record. *)
Record DetectionSummary := mkSummary {
  sm_is_compliant : bool;
  sm_compliance_score : float;
  sm_detected_items : list (string * (bool * float));
  sm_missing_items : list string;
  sm_recommendations : list string
}.

Definition get_detection_summary (result : PPEDetectionResult)
    : DetectionSummary :=
  mkSummary (is_compliant result) (compliance_score result)
    [ ("helmet", (helmet_detected result, helmet_confidence result));
      ("mask", (mask_detected result, mask_confidence result));
      ("gloves", (gloves_detected result, gloves_confidence result));
      ("jacket", (jacket_detected result, jacket_confidence result)) ]
    (_get_missing_items result) (_get_recommendations result).

End DetectorMore.

(** ** compliance_service.py: what the check builds *)

Module ComplianceMore.
Import PyFloat PyStr PyTime Models Effects Alerts Compliance.


(** [channels_used] after the three sends returned [slack], [email] and
    [whatsapp]. *)
Definition channels_used (slack email whatsapp : bool) : list string :=
  ((if slack then ["slack"] else []) ++
   (if email then ["email"] else []) ++
   (if whatsapp then ["whatsapp"] else []))%list.

(** The two responses of [check_compliance]. *)
Definition completed (detection_result : Detector.PPEDetectionResult)
    (record : PPEComplianceRecord) (alert_sent : bool)
    : ComplianceCheckResponse :=
  mkResponse true "Compliance check completed successfully"
    (Some detection_result) (Some (id record)) alert_sent.

Definition failed (e : exn) : ComplianceCheckResponse :=
  mkResponse false ("Error during compliance check: " ++ exn_str e)
    None None false.

(** The worker [_get_or_create_worker] inserts for an unknown id. *)
Definition new_worker (request : ComplianceCheckRequest) : Worker :=
  mkWorker (rq_worker_id request)
    (Some (or_else (rq_worker_name request) "Unknown"))
    (Some (or_else (rq_department request) "Unknown"))
    (rq_shift request).

(** A request without an image. *)
Definition imageless_request : ComplianceCheckRequest :=
  mkRequest "W1" (Some "Ann") (Some "Dock") (Some "Production") None None
    (Some "").

(** A call that does not go to the detection service. *)
Definition not_http (c : call) : Prop :=
  match c with
  | HttpGet _ _ _ | HttpPost _ _ _ => False
  | _ => True
  end.

End ComplianceMore.

(** ** The statistics of compliance_service.py and data_storage.py *)

Module Stats.
Import PyFloat PyStr PyTime Models.

(** A Python number that is an [int] or a [float]. *)
Inductive number :=
| Int (z : Z)
| Float (f : float).

(** [(compliant / total * 100) if total > 0 else 0] *)
Definition rate (compliant total : nat) : number :=
  if (0 <? total)%nat then Float (Detector.score_of compliant total)
  else Int 0.

(** [len([r for r in records if r.is_compliant])] *)
Definition count_compliant (records : list PPEComplianceRecord) : nat :=
  List.length (List.filter is_compliant records).

Section Tally.
Context {K : Type} `{Countable K}.
Variable key : PPEComplianceRecord -> K.

(** One round of the loop that fills [departments] (with the key
    [record.department or 'Unknown']) and [records_by_hour] (with the key
    [record.timestamp.hour]): the entry holds ['total'] and
    ['compliant']. *)
Definition tally_record (groups : gmap K (nat * nat))
    (record : PPEComplianceRecord) : gmap K (nat * nat) :=
  let k := key record in
  let groups :=
    match groups !! k with
    | None => <[k := (0, 0)%nat]> groups
    | Some _ => groups
    end in
  let groups := alter (fun e => (fst e + 1, snd e)%nat) k groups in
  if is_compliant record
  then alter (fun e => (fst e, snd e + 1)%nat) k groups
  else groups.

Definition tally (records : list PPEComplianceRecord) : gmap K (nat * nat) :=
  fold_left tally_record records ∅.

(** The second loop, which adds ['rate'] to every entry. *)
Definition with_rates (groups : gmap K (nat * nat))
    : gmap K (nat * nat * number) :=
  (fun e => (fst e, snd e, rate (snd e) (fst e))) <$> groups.

(** The records of the group [k], and the compliant ones among them. *)
Definition in_group (k : K) (record : PPEComplianceRecord) : bool :=
  bool_decide (key record = k).

Definition group_total (k : K) (records : list PPEComplianceRecord) : nat :=
  List.length (List.filter (in_group k) records).

Definition group_compliant (k : K) (records : list PPEComplianceRecord)
    : nat :=
  List.length
    (List.filter (fun r => in_group k r && is_compliant r) records).

(** The sums of the totals and of the compliant counts over all groups. *)
Definition sum_totals (groups : gmap K (nat * nat * number)) : nat :=
  map_fold (fun _ e acc => (fst (fst e) + acc)%nat) 0%nat groups.

Definition sum_compliant (groups : gmap K (nat * nat * number)) : nat :=
  map_fold (fun _ e acc => (snd (fst e) + acc)%nat) 0%nat groups.

End Tally.

(** [record.department or 'Unknown'] and [record.timestamp.hour] *)
Definition department_key (record : PPEComplianceRecord) : string :=
  or_else (department record) "Unknown".

Definition hour_key (record : PPEComplianceRecord) : nat :=
  hour (timestamp record).

(** The dict of [get_department_compliance_stats], from the point where
    [records] is bound to the rows of the query. *)
Record DepartmentStats := mkDepartmentStats {
  ds_department : string;
  ds_total_checks : nat;
  ds_compliant_checks : nat;
  ds_non_compliant_checks : Z;
  ds_compliance_rate : number;
  ds_period_days : Z
}.

Definition get_department_compliance_stats (department : string) (days : Z)
    (records : list PPEComplianceRecord) : DepartmentStats :=
  let total_checks := List.length records in
  let compliant_checks := count_compliant records in
  let non_compliant_checks :=
    (Z.of_nat total_checks - Z.of_nat compliant_checks)%Z in
  let compliance_rate := rate compliant_checks total_checks in
  mkDepartmentStats department total_checks compliant_checks
    non_compliant_checks compliance_rate days.

(** The dict of [get_overall_compliance_stats], from the same point. *)
Record OverallStats := mkOverallStats {
  os_total_checks : nat;
  os_compliant_checks : nat;
  os_non_compliant_checks : Z;
  os_compliance_rate : number;
  os_departments : gmap string (nat * nat * number);
  os_period_days : Z
}.

Definition get_overall_compliance_stats (days : Z)
    (records : list PPEComplianceRecord) : OverallStats :=
  let total_checks := List.length records in
  let compliant_checks := count_compliant records in
  let non_compliant_checks :=
    (Z.of_nat total_checks - Z.of_nat compliant_checks)%Z in
  let compliance_rate := rate compliant_checks total_checks in
  let departments := tally department_key records in
  let departments := with_rates departments in
  mkOverallStats total_checks compliant_checks non_compliant_checks
    compliance_rate departments days.

(** The dict of [DataStorageService.get_compliance_analytics]; [None] is
    the empty dict.  [generated_at] is the time of the call as
    [datetime.utcnow().isoformat()] prints it. *)
Record Analytics := mkAnalytics {
  an_total_records : nat;
  an_compliant_records : nat;
  an_non_compliant_records : Z;
  an_compliance_rate : number;
  an_ppe_statistics : list (string * (nat * float));
  an_department_statistics : gmap string (nat * nat * number);
  an_hourly_statistics : gmap nat (nat * nat * number);
  an_generated_at : string
}.

Definition get_compliance_analytics (generated_at : string)
    (records : list PPEComplianceRecord) : option Analytics :=
  match records with
  | [] => None
  | _ =>
      let total_records := List.length records in
      let compliant_records := count_compliant records in
      let non_compliant_records :=
        (Z.of_nat total_records - Z.of_nat compliant_records)%Z in
      let compliance_rate := rate compliant_records total_records in
      let item (detected : PPEComplianceRecord -> bool) :=
        let n := List.length (List.filter detected records) in
        (n, Detector.score_of n total_records) in
      let ppe_stats :=
        [ ("helmet", item helmet_detected); ("mask", item mask_detected);
          ("gloves", item gloves_detected); ("jacket", item jacket_detected) ] in
      let departments := with_rates (tally department_key records) in
      let records_by_hour := with_rates (tally hour_key records) in
      Some (mkAnalytics total_records compliant_records non_compliant_records
              compliance_rate ppe_stats departments records_by_hour
              generated_at)
  end.

End Stats.

(** ** simple_main.py: the detection of the demo server *)

Module Demo.
Import PyFloat Detector.

(** [random.choice(l)], given the index it draws. *)
Definition choice (l : list bool) (index : nat) : bool := nth index l false.

(** [random.uniform(a, b)], given the number [u] that [random()] draws:
    [a + (b - a) * u]. *)
Definition uniform (a b u : float) : float :=
  SFadd prec emax a (mul (SFsub prec emax b a) u).

(** [sum([b1, b2, b3, b4])] *)
Definition sum_bools (l : list bool) : nat :=
  List.length (List.filter (fun b : bool => b) l).

(** [mock_ppe_detection], given the four indices and the four numbers it
    draws; the dict it returns has the fields of a detection result. *)
Definition mock_ppe_detection (i1 i2 i3 i4 : nat) (u1 u2 u3 u4 : float)
    : PPEDetectionResult :=
  let helmet_detected := choice [true; true; true; false] i1 in
  let mask_detected := choice [true; true; false; false] i2 in
  let gloves_detected := choice [true; true; true; false] i3 in
  let jacket_detected := choice [true; true; false; false] i4 in
  let helmet_confidence :=
    if helmet_detected then uniform (of_ratio 7 10) (of_ratio 95 100) u1
    else zero in
  let mask_confidence :=
    if mask_detected then uniform (of_ratio 6 10) (of_ratio 9 10) u2
    else zero in
  let gloves_confidence :=
    if gloves_detected then uniform (of_ratio 7 10) (of_ratio 9 10) u3
    else zero in
  let jacket_confidence :=
    if jacket_detected then uniform (of_ratio 6 10) (of_ratio 85 100) u4
    else zero in
  let detected_count :=
    sum_bools
      [helmet_detected; mask_detected; gloves_detected; jacket_detected] in
  let compliance_score :=
    mul (div (of_Z (Z.of_nat detected_count)) (of_Z 4)) (of_Z 100) in
  let is_compliant := ge compliance_score (of_Z 75) in
  mkResult helmet_detected mask_detected gloves_detected jacket_detected
    helmet_confidence mask_confidence gloves_confidence jacket_confidence
    is_compliant compliance_score.

End Demo.

(** * Properties *)

(** ** The order on floats *)

Module FloatFacts.
Import PyFloat.

Ltac cmp_cases :=
  repeat match goal with
  | H : context [Pos.compare_cont Eq ?a ?b] |- _ =>
      change (Pos.compare_cont Eq a b) with (Pos.compare a b) in H
  | |- context [Pos.compare_cont Eq ?a ?b] =>
      change (Pos.compare_cont Eq a b) with (Pos.compare a b)
  end;
  repeat match goal with
  | H : context [Z.compare ?a ?b] |- _ =>
      destruct (Z.compare_spec a b); simpl in H; try discriminate H
  | H : context [Pos.compare ?a ?b] |- _ =>
      destruct (Pos.compare_spec a b); simpl in H; try discriminate H
  | |- context [Z.compare ?a ?b] =>
      destruct (Z.compare_spec a b); simpl
  | |- context [Pos.compare ?a ?b] =>
      destruct (Pos.compare_spec a b); simpl
  end;
  try reflexivity; try discriminate; try lia.

Ltac by_float_cases a b c :=
  destruct a as [[]|[]| |[] ? ?], b as [[]|[]| |[] ? ?],
           c as [[]|[]| |[] ? ?];
  unfold SFleb, SFltb, SFcompare in *;
  try discriminate; try reflexivity; cmp_cases.

Lemma SFleb_trans (a b c : float) :
  SFleb a b = true -> SFleb b c = true -> SFleb a c = true.
Proof. intros H1 H2. by_float_cases a b c. Qed.

Lemma SFleb_not_nan (a b : float) :
  SFleb a b = true -> is_nan a = false /\ is_nan b = false.
Proof.
  destruct a as [[]|[]| |[] ? ?], b as [[]|[]| |[] ? ?];
    simpl; intros H; try discriminate H; split; reflexivity.
Qed.

Lemma SFleb_refl (a : float) : is_nan a = false -> SFleb a a = true.
Proof.
  destruct a as [[]|[]| |[] m e]; simpl; intros H; try discriminate H;
    try reflexivity; unfold SFleb, SFcompare;
    rewrite Z.compare_refl;
    change (Pos.compare_cont Eq m m) with (Pos.compare m m);
    rewrite Pos.compare_refl; reflexivity.
Qed.

Lemma SFltb_leb (a b : float) : SFltb a b = true -> SFleb a b = true.
Proof.
  unfold SFltb, SFleb. destruct (SFcompare a b) as [[]|]; congruence.
Qed.

(** Two numbers that are not NaN are comparable. *)
Lemma SFltb_false_leb (a b : float) :
  is_nan a = false -> is_nan b = false ->
  SFltb a b = false -> SFleb b a = true.
Proof.
  intros Ha Hb H.
  destruct a as [[]|[]| |[] ? ?], b as [[]|[]| |[] ? ?];
    unfold SFleb, SFltb, SFcompare in *;
    try discriminate; try reflexivity; cmp_cases.
Qed.

Lemma half_leb_zero_ltb (c : float) :
  SFleb half c = true -> SFltb zero c = true.
Proof.
  destruct c as [[]|[]| |[] ? ?]; vm_compute; congruence.
Qed.

Lemma max_cases (a b : float) : max a b = a \/ max a b = b.
Proof. unfold max. destruct (gt b a); auto. Qed.

(** [max] is an upper bound of both arguments when neither is NaN. *)
Lemma max_ge_l (a b : float) :
  is_nan a = false -> SFleb a (max a b) = true.
Proof.
  intros Ha. unfold max, gt. destruct (SFltb a b) eqn:E.
  - now apply SFltb_leb.
  - now apply SFleb_refl.
Qed.

Lemma max_ge_r (a b : float) :
  is_nan a = false -> is_nan b = false -> SFleb b (max a b) = true.
Proof.
  intros Ha Hb. unfold max, gt. destruct (SFltb a b) eqn:E.
  - now apply SFleb_refl.
  - now apply SFltb_false_leb.
Qed.

(** A second argument that is not greater leaves the first in place. *)
Lemma max_keep (a b : float) : SFleb b a = true -> max a b = a.
Proof.
  intros H. unfold max, gt.
  destruct (SFltb a b) eqn:E; [|reflexivity]. exfalso.
  destruct a as [[]|[]| |[] ? ?], b as [[]|[]| |[] ? ?];
    unfold SFleb, SFltb, SFcompare in *;
    try discriminate; cmp_cases.
Qed.

Lemma max_zero_accepted (c : float) :
  SFleb half c = true -> max zero c = c.
Proof.
  intros H. unfold max, gt. now rewrite half_leb_zero_ltb.
Qed.

End FloatFacts.

(** ** The normalizer, one category at a time *)

Module DetectorFacts.
Import PyFloat Detector FloatFacts.

Lemma class_variants_of_eq (t : ppe_type) :
  In (t, class_variants_of t) ppe_classes.
Proof. destruct t; vm_compute; tauto. Qed.

Lemma detected_update (t u : ppe_type) r c :
  detected t (_update_ppe_result r u c) =
  if decide (u = t) then true else detected t r.
Proof. destruct t, u; reflexivity. Qed.

Lemma confidence_update (t u : ppe_type) r c :
  confidence t (_update_ppe_result r u c) =
  if decide (u = t) then max (confidence t r) c else confidence t r.
Proof. destruct t, u; reflexivity. Qed.

(** One pass of the inner loop touches category [t] exactly when the
    prediction is accepted into [t]. *)
Lemma process_prediction_detected (t : ppe_type) r p :
  detected t (process_prediction r p) = detected t r || accepted t p.
Proof.
  unfold process_prediction, ppe_classes, accepted, label_matches.
  cbn [fold_left]. unfold match_entry.
  set (cls := PyStr.lower (get_class p)). set (c := get_confidence p).
  destruct t;
    match goal with
    | |- context [class_variants_of ?t] =>
        let v := eval vm_compute in (class_variants_of t) in
        change (class_variants_of t) with v
    end;
    repeat match goal with
    | |- context [any_variant cls ?l] => destruct (any_variant cls l)
    | |- context [ge c ?x] => destruct (ge c x)
    end;
    destruct r as [[] [] [] [] ? ? ? ? ? ?]; reflexivity.
Qed.

Lemma process_prediction_confidence (t : ppe_type) r p :
  confidence t (process_prediction r p) =
  if accepted t p then max (confidence t r) (get_confidence p)
  else confidence t r.
Proof.
  unfold process_prediction, ppe_classes, accepted, label_matches.
  cbn [fold_left]. unfold match_entry.
  set (cls := PyStr.lower (get_class p)). set (c := get_confidence p).
  destruct t;
    match goal with
    | |- context [class_variants_of ?t] =>
        let v := eval vm_compute in (class_variants_of t) in
        change (class_variants_of t) with v
    end;
    repeat match goal with
    | |- context [any_variant cls ?l] => destruct (any_variant cls l)
    | |- context [ge c ?x] => destruct (ge c x)
    end;
    reflexivity.
Qed.

Lemma run_detected (t : ppe_type) predictions r :
  detected t (run predictions r) =
  detected t r || existsb (accepted t) predictions.
Proof.
  unfold run. revert r.
  induction predictions as [|p ps IH]; intros r; simpl.
  - now rewrite orb_false_r.
  - rewrite IH, process_prediction_detected. now rewrite orb_assoc.
Qed.

Lemma run_app predictions more r :
  run (predictions ++ more) r = run more (run predictions r).
Proof. unfold run. apply fold_left_app. Qed.

Lemma detected_calculate (t : ppe_type) r :
  detected t (_calculate_compliance r) = detected t r.
Proof. destruct t; reflexivity. Qed.

Lemma confidence_calculate (t : ppe_type) r :
  confidence t (_calculate_compliance r) = confidence t r.
Proof. destruct t; reflexivity. Qed.

Lemma accepted_ge_half (t : ppe_type) p :
  accepted t p = true -> SFleb half (get_confidence p) = true.
Proof.
  unfold accepted. intros H. apply andb_prop in H as [_ H].
  destruct t; exact H.
Qed.

Lemma slot_ok_step (t : ppe_type) r p :
  slot_ok t r -> slot_ok t (process_prediction r p).
Proof.
  unfold slot_ok.
  rewrite process_prediction_detected, process_prediction_confidence.
  destruct (accepted t p) eqn:A.
  - rewrite orb_true_r. apply accepted_ge_half in A.
    destruct (detected t r); intros H.
    + destruct (max_cases (confidence t r) (get_confidence p)) as [E|E];
        now rewrite E.
    + rewrite H. now rewrite max_zero_accepted.
  - now rewrite orb_false_r.
Qed.

Lemma slot_ok_run (t : ppe_type) predictions r :
  slot_ok t r -> slot_ok t (run predictions r).
Proof.
  unfold run. revert r.
  induction predictions as [|p ps IH]; intros r H; simpl; [exact H|].
  apply IH. now apply slot_ok_step.
Qed.

Lemma slot_ok_default (t : ppe_type) : slot_ok t default_result.
Proof. destruct t; reflexivity. Qed.

Lemma slot_ok_response (t : ppe_type) data :
  slot_ok t (_process_roboflow_response data).
Proof.
  destruct data as [predictions|]; simpl.
  - unfold slot_ok. rewrite detected_calculate, confidence_calculate.
    apply (slot_ok_run t predictions default_result), slot_ok_default.
  - apply slot_ok_default.
Qed.

Lemma run_confidence (t : ppe_type) predictions r :
  confidence t (run predictions r) =
  fold_left
    (fun c p => if accepted t p then max c (get_confidence p) else c)
    predictions (confidence t r).
Proof.
  unfold run. revert r.
  induction predictions as [|p ps IH]; intros r; simpl; [reflexivity|].
  now rewrite IH, process_prediction_confidence.
Qed.

Lemma slot_ok_not_nan (t : ppe_type) r :
  slot_ok t r -> is_nan (confidence t r) = false.
Proof.
  unfold slot_ok. destruct (detected t r); intros H.
  - now apply SFleb_not_nan in H.
  - now rewrite H.
Qed.

(** The recorded confidence never goes down along the loop. *)
Lemma run_confidence_mono (t : ppe_type) predictions r :
  slot_ok t r ->
  SFleb (confidence t r) (confidence t (run predictions r)) = true.
Proof.
  unfold run. revert r.
  induction predictions as [|p ps IH]; intros r Hr; simpl.
  - apply SFleb_refl. now apply slot_ok_not_nan.
  - apply SFleb_trans with (confidence t (process_prediction r p)).
    + rewrite process_prediction_confidence.
      destruct (accepted t p).
      * apply max_ge_l. now apply slot_ok_not_nan.
      * apply SFleb_refl. now apply slot_ok_not_nan.
    + apply IH. now apply slot_ok_step.
Qed.

(** It bounds every accepted confidence from above. *)
Lemma run_confidence_upper (t : ppe_type) predictions r p :
  slot_ok t r -> In p predictions -> accepted t p = true ->
  SFleb (get_confidence p) (confidence t (run predictions r)) = true.
Proof.
  revert r.
  induction predictions as [|q ps IH]; intros r Hr Hin Hp; [destruct Hin|].
  change (run (q :: ps) r) with (run ps (process_prediction r q)).
  destruct Hin as [->|Hin].
  - apply SFleb_trans with (confidence t (process_prediction r p)).
    + rewrite process_prediction_confidence, Hp.
      apply max_ge_r.
      * now apply slot_ok_not_nan.
      * apply accepted_ge_half in Hp. now apply SFleb_not_nan in Hp.
    + apply run_confidence_mono. now apply slot_ok_step.
  - apply IH; [now apply slot_ok_step|exact Hin|exact Hp].
Qed.

(** It is the starting value or one of the accepted confidences. *)
Lemma run_confidence_attained (t : ppe_type) predictions r :
  confidence t (run predictions r) = confidence t r \/
  exists p, In p predictions /\ accepted t p = true /\
            confidence t (run predictions r) = get_confidence p.
Proof.
  revert r.
  induction predictions as [|q ps IH]; intros r; [now left|].
  change (run (q :: ps) r) with (run ps (process_prediction r q)).
  destruct (IH (process_prediction r q)) as [E|(p & Hin & Hp & E)].
  - rewrite E, process_prediction_confidence.
    destruct (accepted t q) eqn:A; [|now left].
    destruct (max_cases (confidence t r) (get_confidence q)) as [E'|E'];
      rewrite E'; [now left|].
    right. exists q. split; [now left|]. split; [exact A|reflexivity].
  - right. exists p. split; [now right|]. split; [exact Hp|exact E].
Qed.

Lemma response_detected (t : ppe_type) predictions :
  detected t (_process_roboflow_response (Some predictions)) =
  existsb (accepted t) predictions.
Proof.
  simpl. rewrite detected_calculate, run_detected.
  destruct t; reflexivity.
Qed.

Lemma response_confidence (t : ppe_type) predictions :
  confidence t (_process_roboflow_response (Some predictions)) =
  confidence t (run predictions default_result).
Proof. simpl. apply confidence_calculate. Qed.


Lemma undetected_confidence_zero (t : ppe_type) roboflow_data :
  detected t (_process_roboflow_response roboflow_data) = false ->
  confidence t (_process_roboflow_response roboflow_data) = zero.
Proof.
  intros E. pose proof (slot_ok_response t roboflow_data) as H.
  unfold slot_ok in H. now rewrite E in H.
Qed.

(** Examples: labels match in any case and as substrings, a confidence
    below the threshold is not accepted, and a repeated category keeps the
    larger confidence whatever the order. *)
Example accepted_any_case :
  accepted Helmet (mkPrediction (Some "Yellow HARD_HAT") (Some (of_ratio 9 10)))
  = true.
Proof. vm_compute. reflexivity. Qed.

Example below_threshold_rejected :
  accepted Jacket (mkPrediction (Some "hi_vis") (Some (of_ratio 49 100)))
  = false.
Proof. vm_compute. reflexivity. Qed.

Example nan_rejected :
  accepted Mask (mkPrediction (Some "mask") (Some S754_nan)) = false.
Proof. vm_compute. reflexivity. Qed.

Example repeated_category_keeps_larger :
  let low := mkPrediction (Some "helmet") (Some (of_ratio 6 10)) in
  let high := mkPrediction (Some "hard_hat") (Some (of_ratio 9 10)) in
  helmet_confidence (_process_roboflow_response (Some [low; high])) =
    of_ratio 9 10 /\
  helmet_confidence (_process_roboflow_response (Some [high; low])) =
    of_ratio 9 10.
Proof. vm_compute. split; reflexivity. Qed.

Example scenario_result :
  _process_roboflow_response (Some scenario) =
  mkResult true true true false
    (of_ratio 9 10) (of_ratio 8 10) (of_ratio 6 10) zero true (of_Z 75).
Proof. vm_compute. reflexivity. Qed.

Example empty_response :
  _process_roboflow_response (Some []) = default_result /\
  _process_roboflow_response None = default_result.
Proof. vm_compute. split; reflexivity. Qed.


(** C10. On every branch of the normalizer each category is either not
    detected with confidence 0.0, or detected with a confidence of at
    least 0.5. *)
Theorem C10_slot_invariant (roboflow_data : option (list prediction))
    (t : ppe_type) :
  let r := _process_roboflow_response roboflow_data in
  (detected t r = false -> confidence t r = zero) /\
  (detected t r = true -> ge (confidence t r) half = true).
Proof.
  cbn zeta. pose proof (slot_ok_response t roboflow_data) as H.
  unfold slot_ok in H.
  destruct (detected t (_process_roboflow_response roboflow_data));
    split; intros E; try discriminate E; exact H.
Qed.


(** C5. The confidence recorded for a category bounds every accepted
    confidence of that category from above and, once the category is
    detected, is one of them: it is their maximum.  One more detection at
    the end of the sequence never lowers it, and leaves it in place when
    the new confidence is not greater. *)
Theorem C5_max_confidence (predictions : list prediction) (t : ppe_type) :
  let r := _process_roboflow_response (Some predictions) in
  let r' p :=
    _process_roboflow_response (Some (predictions ++ [p])%list) in
  (forall p, In p predictions -> accepted t p = true ->
             ge (confidence t r) (get_confidence p) = true) /\
  (detected t r = true ->
   exists p, In p predictions /\ accepted t p = true /\
             confidence t r = get_confidence p) /\
  (forall p, accepted t p = true ->
             ge (confidence t r) (get_confidence p) = true ->
             confidence t (r' p) = confidence t r) /\
  (forall p, ge (confidence t (r' p)) (confidence t r) = true).
Proof.
  cbn zeta. repeat split.
  - intros p Hin Hp. rewrite response_confidence. unfold ge.
    apply run_confidence_upper; [apply slot_ok_default|exact Hin|exact Hp].
  - intros D. rewrite response_confidence.
    destruct (run_confidence_attained t predictions default_result)
      as [E|H]; [|exact H].
    exfalso.
    pose proof (slot_ok_response t (Some predictions)) as S.
    unfold slot_ok in S. rewrite D, response_confidence, E in S.
    destruct t; vm_compute in S; discriminate S.
  - intros p Hp Hle. rewrite !response_confidence, run_app.
    change (run [p] ?x) with (process_prediction x p).
    rewrite process_prediction_confidence, Hp.
    apply max_keep. rewrite response_confidence in Hle. exact Hle.
  - intros p. rewrite !response_confidence, run_app. unfold ge.
    apply run_confidence_mono, slot_ok_run, slot_ok_default.
Qed.

End DetectorFacts.



(** ** Computations and their histories *)

Module EffectFacts.
Import Effects.

Ltac eff_unfold := unfold mbind, M_bind, mret, M_ret in *.

Lemma emits_ret P {A} (a : A) : emits P (ret a).
Proof. intros h. exists (inr a), []. now rewrite app_nil_r. Qed.

Lemma emits_raise P {A} (e : exn) : emits P (@raise A e).
Proof. intros h. exists (inl e), []. now rewrite app_nil_r. Qed.

Lemma emits_perform (P : call -> Prop) {A} c (answer : history -> exn + A) :
  P c -> emits P (perform c answer).
Proof. intros Hc h. exists (answer h), [c]. split; [reflexivity|]. now constructor. Qed.

Lemma emits_mark (P : call -> Prop) c : P c -> emits P (mark c).
Proof. intros Hc h. exists (inr tt), [c]. split; [reflexivity|]. now constructor. Qed.

Lemma emits_bind P {A B} (m : M A) (k : A -> M B) :
  emits P m -> (forall a, emits P (k a)) -> emits P (bind m k).
Proof.
  intros Hm Hk h. unfold bind.
  destruct (Hm h) as (r & evs & E & F). rewrite E.
  destruct r as [e|a].
  - now exists (inl e), evs.
  - destruct (Hk a (h ++ evs)%list) as (r' & evs' & E' & F').
    exists r', (evs ++ evs')%list. rewrite E', app_assoc. split; [reflexivity|].
    now apply Forall_app.
Qed.

Lemma emits_try P {A} (body : M A) (handler : exn -> M A) :
  emits P body -> (forall e, emits P (handler e)) ->
  emits P (try_except body handler).
Proof.
  intros Hm Hk h. unfold try_except.
  destruct (Hm h) as (r & evs & E & F). rewrite E.
  destruct r as [e|a].
  - destruct (Hk e (h ++ evs)%list) as (r' & evs' & E' & F').
    exists r', (evs ++ evs')%list. rewrite E', app_assoc. split; [reflexivity|].
    now apply Forall_app.
  - now exists (inr a), evs.
Qed.

Lemma emits_for_each P {A S} (l : list A) (body : A -> S -> M S) acc :
  (forall x acc, emits P (body x acc)) -> emits P (for_each l body acc).
Proof.
  intros Hb. revert acc.
  induction l as [|x l IH]; intros acc; simpl.
  - apply emits_ret.
  - apply emits_bind; [apply Hb|exact IH].
Qed.

Lemma returns_ret {A} (a : A) : returns (ret a).
Proof. intros h. now exists a, h. Qed.

Lemma returns_bind {A B} (m : M A) (k : A -> M B) :
  returns m -> (forall a, returns (k a)) -> returns (bind m k).
Proof.
  intros Hm Hk h. unfold bind. destruct (Hm h) as (a & h' & ->). apply Hk.
Qed.

Lemma returns_try {A} (body : M A) (handler : exn -> M A) :
  (forall e, returns (handler e)) -> returns (try_except body handler).
Proof.
  intros Hk h. unfold try_except. destruct (body h) as [[e|a] h'].
  - apply Hk.
  - now exists a, h'.
Qed.

End EffectFacts.

(** ** The dispatcher *)

Module AlertFacts.
Import PyFloat PyStr PyTime Models Effects Alerts EffectFacts.
#[local] Set Warnings "-clear-no-such-hyp".

Lemma is_Some_decide {A} (x : option A) :
  bool_decide (is_Some x) = match x with Some _ => true | None => false end.
Proof.
  destruct x as [a|].
  - apply bool_decide_eq_true. now exists a.
  - apply bool_decide_eq_false. intros [a H]. discriminate H.
Qed.

Lemma nonempty_false (s : string) : nonempty s = false <-> s = "".
Proof. destruct s; simpl; split; congruence. Qed.

Lemma successes_positive (l : list bool) :
  (0 <? successes l)%nat = any_true l.
Proof.
  unfold successes, any_true. induction l as [|[] l IH]; simpl; auto.
Qed.

(** The loop of [send_whatsapp_alert] calls Twilio once per recipient,
    in order, whatever the earlier calls answered, and counts the calls
    that returned. *)
Lemma whatsapp_loop env body (recipients : list string) acc h :
  for_each recipients (whatsapp_send_one env body) acc h =
  (inr (acc + successes (deliveries env h body recipients))%nat,
   (h ++ map (twilio_call env body) recipients)%list).
Proof.
  revert acc h.
  induction recipients as [|r rs IH]; intros acc h; simpl.
  - unfold ret, successes. simpl. now rewrite Nat.add_0_r, app_nil_r.
  - unfold bind at 1. unfold whatsapp_send_one at 1.
    unfold try_except, perform. eff_unfold. unfold bind at 1.
    unfold delivery_ok, twilio_call at 2.
    destruct (twilio_messages_create env h body
                (TWILIO_WHATSAPP_NUMBER (settings env)) ("whatsapp:" ++ r))
      as [e|sid]; unfold ret; rewrite IH; unfold successes; simpl;
      rewrite <- app_assoc; simpl; unfold twilio_call;
      [reflexivity|do 2 f_equal; lia].
Qed.

Lemma whatsapp_deliver_spec env (recipients : list string) record h :
  whatsapp_deliver env recipients record h =
  (inr (any_true
          (deliveries env h (whatsapp_message record) recipients)),
   (h ++ map (twilio_call env (whatsapp_message record)) recipients)%list).
Proof.
  unfold whatsapp_deliver. destruct recipients as [|r rs].
  - unfold ret. simpl. now rewrite app_nil_r.
  - eff_unfold. unfold bind. rewrite whatsapp_loop. unfold ret.
    now rewrite Nat.add_0_l, successes_positive.
Qed.

Lemma send_whatsapp_configured env self message record h :
  is_Some (twilio_client self) ->
  send_whatsapp_alert env self message record h =
  whatsapp_deliver env (_get_whatsapp_recipients record) record h.
Proof.
  intros [c Hc]. unfold send_whatsapp_alert.
  rewrite is_Some_decide, Hc. simpl. unfold try_except.
  now rewrite whatsapp_deliver_spec.
Qed.

Lemma send_whatsapp_unconfigured env self message record h :
  twilio_client self = None ->
  send_whatsapp_alert env self message record h = (inr false, h).
Proof.
  intros Hc. unfold send_whatsapp_alert. now rewrite is_Some_decide, Hc.
Qed.

Lemma send_slack_unconfigured env self message record h :
  slack_client self = None \/ SLACK_CHANNEL_ID (settings env) = "" ->
  send_slack_alert env self message record h = (inr false, h).
Proof.
  intros H. unfold send_slack_alert. rewrite is_Some_decide.
  destruct H as [->|H]; [reflexivity|].
  apply nonempty_false in H. rewrite H. now rewrite orb_true_r.
Qed.

(** What [send_slack_alert] returns, by the answer of Slack. *)
Lemma send_slack_cases env self message record h :
  send_slack_alert env self message record h = (inr false, h) \/
  exists answer,
    slack_chat_postMessage env h (SLACK_CHANNEL_ID (settings env)) message
      (_create_slack_blocks message record) = answer /\
    send_slack_alert env self message record h =
    (inr (match answer with inr _ => true | inl _ => false end),
     (h ++ [SlackPostMessage (SLACK_CHANNEL_ID (settings env)) message
              (_create_slack_blocks message record)])%list).
Proof.
  unfold send_slack_alert.
  destruct (negb (bool_decide (is_Some (slack_client self))) ||
            negb (nonempty (SLACK_CHANNEL_ID (settings env)))).
  - now left.
  - right. eexists. split; [reflexivity|].
    unfold try_except, perform. eff_unfold. unfold bind.
    destruct (slack_chat_postMessage env h _ _ _) as [[]|]; reflexivity.
Qed.

Lemma send_email_unconfigured env self message record h :
  sendgrid_client self = None ->
  send_email_alert env self message record h = (inr false, h).
Proof.
  intros Hc. unfold send_email_alert. now rewrite is_Some_decide, Hc.
Qed.

(** What [send_email_alert] returns, by the answer of SendGrid. *)
Lemma send_email_cases env self message record h :
  send_email_alert env self message record h = (inr false, h) \/
  exists answer,
    sendgrid_send env h (alert_mail env message record) = answer /\
    send_email_alert env self message record h =
    (inr (match answer with
          | inr status_code => existsb (Z.eqb status_code) [200; 201; 202]%Z
          | inl _ => false
          end),
     (h ++ [SendGridSend (alert_mail env message record)])%list).
Proof.
  unfold send_email_alert.
  destruct (negb (bool_decide (is_Some (sendgrid_client self)))).
  - now left.
  - right. eexists. split; [reflexivity|].
    unfold try_except, perform. eff_unfold. unfold bind.
    change (mkMail _ _ _ _ _) with (alert_mail env message record).
    destruct (sendgrid_send env h _) as [e|status_code]; [reflexivity|].
    destruct (existsb (Z.eqb status_code) [200; 201; 202]%Z); reflexivity.
Qed.

Lemma send_whatsapp_cases env self message record h :
  send_whatsapp_alert env self message record h = (inr false, h) \/
  send_whatsapp_alert env self message record h =
  whatsapp_deliver env (_get_whatsapp_recipients record) record h.
Proof.
  destruct (twilio_client self) as [c|] eqn:E.
  - right. apply send_whatsapp_configured. rewrite E. now exists c.
  - left. now apply send_whatsapp_unconfigured.
Qed.







(** C3. With Twilio configured, the fan-out calls Twilio once for every
    recipient of the list, in the order of the list, whatever the earlier
    calls answered, and returns [True] exactly when some call returned;
    [send_whatsapp_alert] is this fan-out over the resolved recipients. *)
Theorem C3_whatsapp_fanout (env : Env) (self : AlertService)
    (message : string) (record : PPEComplianceRecord) (h : history)
    (recipients : list string) :
  is_Some (twilio_client self) ->
  let body := whatsapp_message record in
  whatsapp_deliver env recipients record h =
  (inr (any_true (deliveries env h body recipients)),
   (h ++ map (twilio_call env body) recipients)%list) /\
  (any_true (deliveries env h body recipients) = true <->
   exists i, deliveries env h body recipients !! i = Some true) /\
  List.length (deliveries env h body recipients) = List.length recipients /\
  send_whatsapp_alert env self message record h =
  whatsapp_deliver env (_get_whatsapp_recipients record) record h.
Proof.
  intros Hc. cbn zeta. split; [apply whatsapp_deliver_spec|].
  split; [|split].
  - unfold any_true. rewrite existsb_exists. split.
    + intros (b & Hin & ->). apply list_elem_of_In in Hin.
      now apply list_elem_of_lookup in Hin.
    + intros [i Hi]. exists true. split; [|reflexivity].
      apply list_elem_of_In. apply list_elem_of_lookup. now exists i.
  - generalize h. induction recipients as [|r rs IH]; intros h0; simpl;
      [reflexivity|]. now rewrite IH.
  - now apply send_whatsapp_configured.
Qed.

(** In the example environment the first default number cannot be
    reached and the second can: both are called, the alert counts as
    sent. *)
Lemma C3_whatsapp_fanout_witness :
  is_Some (twilio_client (__init__ example_settings)) /\
  send_whatsapp_alert example_env (__init__ example_settings) "alert"
    example_record [] =
  (inr true,
   map (twilio_call example_env (whatsapp_message example_record))
     ["+1234567890"; "+1234567891"; "+1234567892"]).
Proof.
  assert (Hc : is_Some (twilio_client (__init__ example_settings)))
    by (eexists; reflexivity).
  split; [exact Hc|].
  destruct (C3_whatsapp_fanout example_env (__init__ example_settings)
              "alert" example_record []
              (_get_whatsapp_recipients example_record) Hc)
    as (E & _ & _ & S).
  rewrite S, E. vm_compute. reflexivity.
Defined.

Lemma in_list_spec (x : string) (channels : list string) :
  in_list x channels = true <-> x ∈ channels.
Proof.
  unfold in_list. rewrite existsb_exists, list_elem_of_In. split.
  - intros (y & Hin & E). apply String.eqb_eq in E. now subst y.
  - intros Hin. exists x. split; [exact Hin|apply String.eqb_refl].
Qed.




(** ** The recipient resolvers *)

Lemma email_dept_lookup (k : string) :
  email_dept_recipients !! k =
  if decide ("production" = k) then Some ["production-manager@yourcompany.com"]
  else if decide ("maintenance" = k)
       then Some ["maintenance-manager@yourcompany.com"]
  else if decide ("warehouse" = k)
       then Some ["warehouse-manager@yourcompany.com"]
  else None.
Proof.
  unfold email_dept_recipients. cbn [list_to_map foldr uncurry].
  now rewrite !lookup_insert, lookup_empty.
Qed.

Lemma whatsapp_dept_lookup (k : string) :
  whatsapp_dept_recipients !! k =
  if decide ("production" = k) then Some ["+1234567892"]
  else if decide ("maintenance" = k) then Some ["+1234567893"]
  else if decide ("warehouse" = k) then Some ["+1234567894"]
  else None.
Proof.
  unfold whatsapp_dept_recipients. cbn [list_to_map foldr uncurry].
  now rewrite !lookup_insert, lookup_empty.
Qed.

(** C8. Both resolvers return the defaults of their channel followed by
    the entry of the department table under the lower-cased department,
    when there is one; the tables have the keys production, maintenance
    and warehouse, each with a non-empty entry, so something is appended
    exactly when the lower-cased department is one of the three; an
    absent department and an unknown one give the defaults alone. *)
Theorem C8_recipient_resolvers (record : PPEComplianceRecord) :
  let extra (table : gmap string (list string)) :=
    match department record with
    | Some d => default [] (table !! lower d)
    | None => []
    end in
  (_get_alert_recipients record =
     (email_default_recipients ++ extra email_dept_recipients)%list /\
   _get_whatsapp_recipients record =
     (whatsapp_default_recipients ++ extra whatsapp_dept_recipients)%list) /\
  (forall table, table = email_dept_recipients \/
                 table = whatsapp_dept_recipients ->
     (forall k, is_Some (table !! k) <-> In k department_keys) /\
     (extra table <> [] <->
      exists d, department record = Some d /\ In (lower d) department_keys)) /\
  (department record = Some "Production" ->
   _get_alert_recipients record =
     ["safety@yourcompany.com"; "supervisor@yourcompany.com";
      "production-manager@yourcompany.com"]).
Proof.
  cbn zeta. split; [|split].
  - unfold _get_alert_recipients, _get_whatsapp_recipients.
    destruct (department record) as [[|c d]|]; cbn [truthy str default];
      rewrite ?app_nil_r; split; reflexivity.
  - assert (K : forall table,
               table = email_dept_recipients \/
               table = whatsapp_dept_recipients ->
               forall k, (is_Some (table !! k) <-> In k department_keys) /\
                         (forall l, table !! k = Some l -> l <> [])).
    { intros table [->| ->] k;
        rewrite ?email_dept_lookup, ?whatsapp_dept_lookup;
        unfold department_keys; simpl;
        repeat case_decide; subst;
        (split; [split; [intros [l Hl]; try discriminate Hl; tauto
                        |intros Hin; try (eexists; reflexivity);
                         exfalso; intuition congruence]
                |intros l Hl; inversion Hl; discriminate]). }
    intros table Ht. split; [intros k; apply (K table Ht k)|].
    destruct (department record) as [d|].
    + destruct (K table Ht (lower d)) as [Hk Hne].
      destruct (table !! lower d) as [l|] eqn:E; simpl.
      * split.
        -- intros _. exists d. split; [reflexivity|]. apply Hk. now exists l.
        -- intros _. now apply Hne.
      * split; [congruence|].
        intros (d' & Hd & Hin). inversion Hd; subst d'.
        apply Hk in Hin as [l Hl]. discriminate Hl.
    + split; [congruence|]. intros (d & Hd & _). discriminate Hd.
  - intros Hd. unfold _get_alert_recipients. rewrite Hd. reflexivity.
Qed.

(** ** The formatter *)

Ltac find_line :=
  repeat first [left; reflexivity | right].

(** The WhatsApp message has no line for the shift: setting the shift does
    not change it. *)
Lemma whatsapp_message_ignores_shift (s : option string) record :
  whatsapp_message (set_shift s record) = whatsapp_message record.
Proof. reflexivity. Qed.

(** C9, as stated, fails: the WhatsApp message of a record without a shift
    whose department and location are known does not contain "Unknown"
    at all. *)
Lemma C9_whatsapp_shift_not_rendered :
  (shift example_record = None /\
   contains (whatsapp_message example_record) "Unknown" = false) /\
  ~ (forall record : PPEComplianceRecord,
       shift record = None ->
       contains (whatsapp_message record) "Unknown" = true).
Proof.
  split; [split; [reflexivity|vm_compute; reflexivity]|].
  intros H. specialize (H example_record eq_refl).
  vm_compute in H. discriminate H.
Qed.

(** C9, amended. In the Slack blocks, the email HTML and the email text, an
    absent department, location or shift is printed as "Unknown" after its
    label; in the WhatsApp message an absent department or location is
    printed so, and the shift has no line: the message does not depend on
    it.  Each rendering of an absent field is the rendering of that field
    set to "Unknown". *)
Theorem C9_absent_fields_unknown (message : string)
    (record : PPEComplianceRecord) :
  let slack :=
    flat_map block_texts (_create_slack_blocks message record) in
  let html := email_html_lines record in
  let text := email_text_lines record in
  let whatsapp := whatsapp_lines record in
  let unknown := Some "Unknown" in
  (department record = None ->
   (In ("*Department:* Unknown" ++ nl ++ "*Location:* " ++
        or_else (location record) "Unknown") slack /\
    In "                        <p><strong>Department:</strong> Unknown</p>"
       html /\
    In "Department: Unknown" text /\
    In "*Department:* Unknown" whatsapp) /\
   (_create_slack_blocks message record =
      _create_slack_blocks message (set_department unknown record) /\
    _create_email_html message record =
      _create_email_html message (set_department unknown record) /\
    _create_email_text message record =
      _create_email_text message (set_department unknown record) /\
    whatsapp_message record =
      whatsapp_message (set_department unknown record))) /\
  (location record = None ->
   (In ("*Department:* " ++ or_else (department record) "Unknown" ++ nl ++
        "*Location:* Unknown") slack /\
    In "                        <p><strong>Location:</strong> Unknown</p>"
       html /\
    In "Location: Unknown" text /\
    In "*Location:* Unknown" whatsapp) /\
   (_create_slack_blocks message record =
      _create_slack_blocks message (set_location unknown record) /\
    _create_email_html message record =
      _create_email_html message (set_location unknown record) /\
    _create_email_text message record =
      _create_email_text message (set_location unknown record) /\
    whatsapp_message record =
      whatsapp_message (set_location unknown record))) /\
  (shift record = None ->
   (In ("*Time:* " ++ strftime (timestamp record) ++ nl ++
        "*Shift:* Unknown") slack /\
    In "                        <p><strong>Shift:</strong> Unknown</p>" html /\
    In "Shift: Unknown" text) /\
   (_create_slack_blocks message record =
      _create_slack_blocks message (set_shift unknown record) /\
    _create_email_html message record =
      _create_email_html message (set_shift unknown record) /\
    _create_email_text message record =
      _create_email_text message (set_shift unknown record))) /\
  (forall s, whatsapp_message (set_shift s record) = whatsapp_message record).
Proof.
  cbn zeta.
  destruct record as [i wid wname ts hd md gd jd hc mc gc jc ok sc loc dep sh
                        sent chans].
  cbn [department location shift set_department set_location set_shift].
  split; [|split; [|split]].
  - intros ->. split.
    + unfold _create_slack_blocks, email_html_lines, email_text_lines,
        whatsapp_lines.
      cbn [flat_map block_texts app department location shift or_else
           Models.timestamp].
      repeat split; find_line.
    + repeat split; reflexivity.
  - intros ->. split.
    + unfold _create_slack_blocks, email_html_lines, email_text_lines,
        whatsapp_lines.
      cbn [flat_map block_texts app department location shift or_else
           Models.timestamp].
      repeat split; find_line.
    + repeat split; reflexivity.
  - intros ->. split.
    + unfold _create_slack_blocks, email_html_lines, email_text_lines.
      cbn [flat_map block_texts app department location shift or_else
           Models.timestamp].
      repeat split; find_line.
    + repeat split; reflexivity.
  - intros s. reflexivity.
Qed.

End AlertFacts.

(** ** The compliance check *)

Module ComplianceFacts.
Import PyFloat PyStr PyTime Models Effects Alerts Compliance EffectFacts
  AlertFacts.

Lemma emits_any {A} (m : M A) P : emits P m -> emits any_call m.
Proof.
  intros H h. destruct (H h) as (r & evs & E & _). exists r, evs.
  split; [exact E|]. apply Forall_forall. intros c _. exact I.
Qed.

Lemma get_or_create_worker_quiet env request :
  emits quiet (_get_or_create_worker env request).
Proof.
  unfold _get_or_create_worker. eff_unfold.
  apply emits_bind; [now apply emits_perform|].
  intros [w|]; [apply emits_ret|now apply emits_perform].
Qed.

Lemma detect_url_quiet env url : emits quiet (detect_ppe_from_url env url).
Proof.
  unfold detect_ppe_from_url. eff_unfold.
  apply emits_try; [|intros e; apply emits_ret].
  apply emits_bind; [now apply emits_perform|intros a; apply emits_ret].
Qed.

Lemma detect_base64_quiet env image :
  emits quiet (detect_ppe_from_base64 env image).
Proof.
  unfold detect_ppe_from_base64. eff_unfold.
  apply emits_try; [|intros e; apply emits_ret].
  apply emits_bind; [now apply emits_perform|intros a; apply emits_ret].
Qed.

Lemma perform_ppe_detection_quiet env request :
  emits quiet (_perform_ppe_detection env request).
Proof.
  unfold _perform_ppe_detection.
  destruct (truthy (rq_image_url request)); [apply detect_url_quiet|].
  destruct (truthy (rq_image_base64 request));
    [apply detect_base64_quiet|apply emits_ret].
Qed.

(** Detection never raises: a failure of the detection service gives the
    default result. *)
Lemma perform_ppe_detection_returns env request :
  returns (_perform_ppe_detection env request).
Proof.
  unfold _perform_ppe_detection, detect_ppe_from_url, detect_ppe_from_base64.
  destruct (truthy (rq_image_url request));
    [apply returns_try; intros e; apply returns_ret|].
  destruct (truthy (rq_image_base64 request));
    [apply returns_try; intros e; apply returns_ret|apply returns_ret].
Qed.

Lemma create_compliance_record_quiet env request d w :
  emits quiet (_create_compliance_record env request d w).
Proof.
  unfold _create_compliance_record. eff_unfold.
  apply emits_bind; [now apply emits_perform|intros a; apply emits_ret].
Qed.

Lemma send_slack_emits env self message record :
  emits any_call (send_slack_alert env self message record).
Proof.
  intros h.
  destruct (send_slack_cases env self message record h)
    as [E|(answer & _ & E)]; rewrite E.
  - exists (inr false), []. now rewrite app_nil_r.
  - eexists _, _. split; [reflexivity|]. now repeat constructor.
Qed.

Lemma send_email_emits env self message record :
  emits any_call (send_email_alert env self message record).
Proof.
  intros h.
  destruct (send_email_cases env self message record h)
    as [E|(answer & _ & E)]; rewrite E.
  - exists (inr false), []. now rewrite app_nil_r.
  - eexists _, _. split; [reflexivity|]. now repeat constructor.
Qed.

Lemma send_whatsapp_emits env self message record :
  emits any_call (send_whatsapp_alert env self message record).
Proof.
  intros h.
  destruct (send_whatsapp_cases env self message record h) as [E|E];
    rewrite E.
  - exists (inr false), []. now rewrite app_nil_r.
  - rewrite whatsapp_deliver_spec. eexists _, _. split; [reflexivity|].
    apply Forall_forall. intros c _. exact I.
Qed.

(** [_send_compliance_alerts] marks its entry, never raises and only
    extends the history. *)
Lemma send_compliance_alerts_spec env record d h :
  exists b evs,
    _send_compliance_alerts env record d h =
    (inr b, (h ++ EnterSendComplianceAlerts :: evs)%list).
Proof.
  unfold _send_compliance_alerts. eff_unfold.
  unfold bind at 1. unfold mark.
  match goal with
  | |- context [try_except ?body ?handler] =>
      assert (Hr : returns (try_except body handler))
        by (apply returns_try; intros e; apply returns_ret);
      assert (He : emits any_call (try_except body handler))
  end.
  { apply emits_try; [|intros e; apply emits_ret].
    apply emits_bind; [apply send_slack_emits|intros b1].
    apply emits_bind; [apply send_email_emits|intros b2].
    apply emits_bind; [apply send_whatsapp_emits|intros b3].
    apply emits_bind; [now apply emits_perform|intros u; apply emits_ret]. }
  destruct (He (h ++ [EnterSendComplianceAlerts])%list) as (r & evs & E & _).
  destruct (Hr (h ++ [EnterSendComplianceAlerts])%list) as (b & h' & E').
  rewrite E in E'. inversion E'; subst r.
  exists b, evs. rewrite E. now rewrite <- app_assoc.
Qed.

Lemma quiet_not_in evs : Forall quiet evs -> ~ In EnterSendComplianceAlerts evs.
Proof.
  intros F Hin. rewrite Forall_forall in F. now apply (F _ Hin).
Qed.

(** C7, as stated, fails: when the database refuses the insert of the
    record, a detection result that is not compliant triggers no alert.
    The check below detects nothing, so the result is not compliant; the
    insert raises, the check answers with a failure and
    [_send_compliance_alerts] is never entered. *)
Lemma C7_insert_failure_skips_alerts :
  let worker := mkWorker "W1" (Some "Ann") (Some "Production") None in
  let h1 := [DbFirstWorker "W1"; DbInsertWorker worker] in
  let out := check_compliance locked_db_env example_request [] in
  _get_or_create_worker locked_db_env example_request [] = (inr worker, h1) /\
  fst (_perform_ppe_detection locked_db_env example_request h1) =
    inr Detector.default_result /\
  Detector.is_compliant Detector.default_result = false /\
  fst out =
    inr (mkResponse false "Error during compliance check: database is locked"
           None None false) /\
  ~ In EnterSendComplianceAlerts (snd out).
Proof.
  cbn zeta. repeat split; try (vm_compute; reflexivity).
  vm_compute. intros H.
  repeat (destruct H as [H|H]; [discriminate H|]). exact H.
Qed.

(** C7, amended. A compliance check always returns a response and only
    extends the history.  It completes, with [success] set and the
    detection result in [data], exactly when neither the worker lookup nor
    the insert of the record raises; it enters [_send_compliance_alerts]
    exactly when it completes with a detection result that is not
    compliant.  So a compliant result never triggers the alerts, a
    non-compliant result does once the record is stored, and a check that
    fails before that sends nothing.  The scenario with a hard hat, an N95
    mask and safety gloves gives helmet, mask and gloves detected, no
    jacket, the score 75.0 and a compliant verdict, so a check whose
    detection service answers with it enters no alert step. *)
Theorem C7_alerts_iff_non_compliant (env : Env)
    (request : ComplianceCheckRequest) (h : history) :
  let verdict := Detector._process_roboflow_response (Some Detector.scenario) in
  (exists resp evs,
     check_compliance env request h = (inr resp, (h ++ evs)%list) /\
     (In EnterSendComplianceAlerts evs <->
      exists d, data resp = Some d /\ Detector.is_compliant d = false) /\
     (success resp = true <-> is_Some (data resp)) /\
     (success resp = true <->
      exists w h1 d h2 rec h3,
        _get_or_create_worker env request h = (inr w, h1) /\
        _perform_ppe_detection env request h1 = (inr d, h2) /\
        _create_compliance_record env request d w h2 = (inr rec, h3) /\
        data resp = Some d) /\
     (forall url,
        rq_image_url request = Some url -> url <> "" ->
        (forall h', requests_get env h' (base_url env)
                      (ROBOFLOW_API_KEY (settings env)) url =
                    inr (Some Detector.scenario)) ->
        success resp = true ->
        data resp = Some verdict /\ ~ In EnterSendComplianceAlerts evs)) /\
  (Detector.helmet_detected verdict = true /\
   Detector.mask_detected verdict = true /\
   Detector.gloves_detected verdict = true /\
   Detector.jacket_detected verdict = false /\
   Detector.compliance_score verdict = of_Z 75 /\
   format_1f (Detector.compliance_score verdict) = "75.0" /\
   Detector.is_compliant verdict = true).
Proof.
  cbn zeta. split; [|vm_compute; repeat split; reflexivity].
  unfold check_compliance, try_except. eff_unfold. unfold bind.
  destruct (get_or_create_worker_quiet env request h)
    as (r1 & ev1 & E1 & F1). rewrite E1.
  destruct r1 as [e|w].
  { (* the worker lookup raises *)
    eexists _, ev1. split; [reflexivity|]. cbn [data success].
    split; [|split; [|split]].
    - split; [intros Hin; now apply quiet_not_in in Hin|].
      intros (d & Hd & _). discriminate Hd.
    - split; [discriminate|]. intros [d Hd]. discriminate Hd.
    - split; [discriminate|].
      intros (w & h1 & d & h2 & rec & h3 & Hw & _). discriminate Hw.
    - intros url _ _ _ Hs. discriminate Hs. }
  destruct (perform_ppe_detection_quiet env request (h ++ ev1)%list)
    as (r2 & ev2 & E2 & F2).
  destruct (perform_ppe_detection_returns env request (h ++ ev1)%list)
    as (d & h2 & E2').
  rewrite E2 in E2'. inversion E2'; subst r2. clear E2'.
  rewrite E2.
  destruct (create_compliance_record_quiet env request d w
              ((h ++ ev1) ++ ev2)%list) as (r3 & ev3 & E3 & F3).
  rewrite E3.
  assert (Q : Forall quiet (ev1 ++ ev2 ++ ev3)%list)
    by now repeat apply Forall_app_2.
  destruct r3 as [e|rec].
  { (* the insert of the record raises *)
    eexists _, (ev1 ++ ev2 ++ ev3)%list.
    split; [now rewrite !app_assoc|]. cbn [data success].
    split; [|split; [|split]].
    - split; [intros Hin; now apply quiet_not_in in Hin|].
      intros (d' & Hd & _). discriminate Hd.
    - split; [discriminate|]. intros [d' Hd]. discriminate Hd.
    - split; [discriminate|].
      intros (w' & h1' & d' & h2' & rec & h3 & Hw & Hd & Hr & _).
      inversion Hw; subst w' h1'. rewrite E2 in Hd.
      inversion Hd; subst d' h2'. rewrite E3 in Hr. discriminate Hr.
    - intros url _ _ _ Hs. discriminate Hs. }
  assert (Hscenario : forall url,
            rq_image_url request = Some url -> url <> "" ->
            (forall h', requests_get env h' (base_url env)
                          (ROBOFLOW_API_KEY (settings env)) url =
                        inr (Some Detector.scenario)) ->
            d = Detector._process_roboflow_response (Some Detector.scenario)).
  { intros url Hu Hne Hget. revert E2.
    unfold _perform_ppe_detection. rewrite Hu.
    destruct url as [|c url]; [congruence|]. cbn [truthy str default].
    unfold detect_ppe_from_url, try_except, perform. eff_unfold.
    unfold bind. rewrite Hget. unfold ret. congruence. }
  assert (Hsteps : exists w0 h1 d0 h2 rec0 h3,
            _get_or_create_worker env request h = (inr w0, h1) /\
            _perform_ppe_detection env request h1 = (inr d0, h2) /\
            _create_compliance_record env request d0 w0 h2 = (inr rec0, h3) /\
            Some d = Some d0)
    by (exists w, (h ++ ev1)%list, d, ((h ++ ev1) ++ ev2)%list, rec,
          (((h ++ ev1) ++ ev2) ++ ev3)%list; auto).
  rewrite E1 in Hsteps.
  destruct (Detector.is_compliant d) eqn:C; cbn [negb].
  - (* compliant: the alert step is skipped *)
    unfold ret. eexists _, (ev1 ++ ev2 ++ ev3)%list.
    split; [now rewrite !app_assoc|]. cbn [data success].
    split; [|split; [|split]].
    + split; [intros Hin; now apply quiet_not_in in Hin|].
      intros (d' & Hd & Hc). inversion Hd; subst d'. congruence.
    + split; [intros _; now exists d|reflexivity].
    + split; [intros _; exact Hsteps|reflexivity].
    + intros url Hu Hne Hget _. split.
      * now rewrite (Hscenario url Hu Hne Hget).
      * now apply quiet_not_in.
  - (* not compliant: the alert step runs and returns *)
    destruct (send_compliance_alerts_spec env rec d
                (((h ++ ev1) ++ ev2) ++ ev3)%list) as (b & ev4 & E4).
    rewrite E4. unfold ret.
    eexists _, (ev1 ++ ev2 ++ ev3 ++ EnterSendComplianceAlerts :: ev4)%list.
    split; [now rewrite !app_assoc|]. cbn [data success].
    split; [|split; [|split]].
    + split; [intros _; now exists d|]. intros _.
      rewrite !in_app_iff. right. right. right. now left.
    + split; [intros _; now exists d|reflexivity].
    + split; [intros _; exact Hsteps|reflexivity].
    + intros url Hu Hne Hget _. exfalso.
      rewrite (Hscenario url Hu Hne Hget) in C. vm_compute in C.
      discriminate C.
Qed.

End ComplianceFacts.

(** ** More on the normalizer *)

Module DetectorMoreFacts.
Import PyFloat Detector DetectorMore FloatFacts DetectorFacts.

(** An accepted confidence is a positive number or plus infinity. *)
Lemma ge_half_positive (a : float) :
  SFleb half a = true ->
  a = S754_infinity false \/ exists m e, a = S754_finite false m e.
Proof.
  destruct a as [[]|[]| |[] m e]; intros H; vm_compute in H;
    try discriminate H; eauto.
Qed.

(** On accepted confidences the order of floats is antisymmetric. *)
Lemma SFleb_antisym (a b : float) :
  SFleb half a = true -> SFleb a b = true -> SFleb b a = true -> a = b.
Proof.
  intros Ha Hab Hba.
  assert (Hb : SFleb half b = true) by now apply SFleb_trans with a.
  destruct (ge_half_positive a Ha) as [->|(m & e & ->)],
           (ge_half_positive b Hb) as [->|(m' & e' & ->)];
    try reflexivity; try discriminate Hab; try discriminate Hba.
  unfold SFleb, SFcompare in Hab, Hba.
  change (Pos.compare_cont Eq m m') with (Pos.compare m m') in Hab.
  change (Pos.compare_cont Eq m' m) with (Pos.compare m' m) in Hba.
  destruct (Z.compare_spec e e') as [He|He|He];
    destruct (Z.compare_spec e' e) as [He'|He'|He']; try lia;
    try discriminate Hab; try discriminate Hba.
  destruct (Pos.compare_spec m m') as [Hm|Hm|Hm];
    destruct (Pos.compare_spec m' m) as [Hm'|Hm'|Hm']; try lia;
    try discriminate Hab; try discriminate Hba.
  now subst.
Qed.

Lemma detected_accepted (t : ppe_type) l :
  detected t (_process_roboflow_response (Some l)) = true <->
  exists c, accepted_confidence t l c.
Proof.
  rewrite response_detected, existsb_exists. unfold accepted_confidence.
  split.
  - intros (p & Hin & Hp). now exists (get_confidence p), p.
  - intros (c & p & Hin & Hp & _). now exists p.
Qed.

(** The recorded confidence of a detected category is an accepted
    confidence and bounds all of them. *)
Lemma confidence_greatest (t : ppe_type) l :
  detected t (_process_roboflow_response (Some l)) = true ->
  accepted_confidence t l
    (confidence t (_process_roboflow_response (Some l))) /\
  forall c, accepted_confidence t l c ->
            SFleb c (confidence t (_process_roboflow_response (Some l)))
            = true.
Proof.
  intros D. split.
  - rewrite response_confidence.
    destruct (run_confidence_attained t l default_result)
      as [E|(p & Hin & Hp & E)].
    + exfalso. pose proof (slot_ok_response t (Some l)) as S.
      unfold slot_ok in S. rewrite D, response_confidence, E in S.
      destruct t; vm_compute in S; discriminate S.
    + now exists p.
  - intros c (p & Hin & Hp & <-). rewrite response_confidence.
    apply run_confidence_upper; [apply slot_ok_default|exact Hin|exact Hp].
Qed.

Lemma calculate_ext (r1 r2 : PPEDetectionResult) :
  (forall t, detected t r1 = detected t r2) ->
  (forall t, confidence t r1 = confidence t r2) ->
  _calculate_compliance r1 = _calculate_compliance r2.
Proof.
  intros D C.
  pose proof (D Helmet) as D1. pose proof (D Mask) as D2.
  pose proof (D Gloves) as D3. pose proof (D Jacket) as D4.
  pose proof (C Helmet) as C1. pose proof (C Mask) as C2.
  pose proof (C Gloves) as C3. pose proof (C Jacket) as C4.
  destruct r1, r2. simpl in *. subst. reflexivity.
Qed.

Lemma response_as_calculate l :
  _process_roboflow_response (Some l) =
  _calculate_compliance (run l default_result).
Proof. reflexivity. Qed.

(** Two sequences with the same accepted confidences in every category
    give the same result. *)
Lemma response_ext (l l' : list prediction) :
  (forall t c, accepted_confidence t l c <-> accepted_confidence t l' c) ->
  _process_roboflow_response (Some l) = _process_roboflow_response (Some l').
Proof.
  intros H.
  assert (D : forall t,
             detected t (_process_roboflow_response (Some l)) =
             detected t (_process_roboflow_response (Some l'))).
  { intros t. apply eq_true_iff_eq. rewrite !detected_accepted.
    split; intros [c Hc]; exists c; now apply H. }
  assert (C : forall t,
             confidence t (_process_roboflow_response (Some l)) =
             confidence t (_process_roboflow_response (Some l'))).
  { intros t. specialize (D t).
    destruct (detected t (_process_roboflow_response (Some l))) eqn:E.
    - symmetry in D.
      destruct (confidence_greatest t l E) as [A1 U1].
      destruct (confidence_greatest t l' D) as [A2 U2].
      apply SFleb_antisym.
      + destruct A1 as (p & _ & Hp & <-). now apply accepted_ge_half in Hp.
      + apply U2. now apply H.
      + apply U1. now apply H.
    - symmetry in D.
      rewrite (undetected_confidence_zero t (Some l) E).
      now rewrite (undetected_confidence_zero t (Some l') D). }
  rewrite !response_as_calculate.
  rewrite !response_as_calculate in D, C.
  revert D C. generalize (run l default_result) (run l' default_result).
  intros r1 r2 D C. apply calculate_ext.
  - intros t. specialize (D t). now rewrite !detected_calculate in D.
  - intros t. specialize (C t). now rewrite !confidence_calculate in C.
Qed.

(** X1. The result of the normalizer depends only on which predictions
    occur in the response, not on their order or on repetitions. *)
Theorem X1_response_same_elements (l l' : list prediction) :
  (forall p, In p l <-> In p l') ->
  _process_roboflow_response (Some l) = _process_roboflow_response (Some l').
Proof.
  intros H. apply response_ext. intros t c. unfold accepted_confidence.
  split; intros (p & Hin & Hp); exists p; (split; [now apply H|exact Hp]).
Qed.

Lemma X1_response_same_elements_witness :
  let a := mkPrediction (Some "helmet") (Some (of_ratio 6 10)) in
  let b := mkPrediction (Some "hard_hat") (Some (of_ratio 9 10)) in
  (forall p, In p [a; b; a] <-> In p [b; a]) /\
  _process_roboflow_response (Some [a; b; a]) =
  _process_roboflow_response (Some [b; a]).
Proof.
  cbn zeta.
  assert (H : forall p,
            In p [mkPrediction (Some "helmet") (Some (of_ratio 6 10));
                  mkPrediction (Some "hard_hat") (Some (of_ratio 9 10));
                  mkPrediction (Some "helmet") (Some (of_ratio 6 10))] <->
            In p [mkPrediction (Some "hard_hat") (Some (of_ratio 9 10));
                  mkPrediction (Some "helmet") (Some (of_ratio 6 10))])
    by (intros p; simpl; tauto).
  split; [exact H|]. exact (X1_response_same_elements _ _ H).
Defined.




Lemma calculate_mono (a b : PPEDetectionResult) :
  (forall t, detected t a = true -> detected t b = true) ->
  SFleb (compliance_score (_calculate_compliance a))
        (compliance_score (_calculate_compliance b)) = true /\
  (is_compliant (_calculate_compliance a) = true ->
   is_compliant (_calculate_compliance b) = true).
Proof.
  intros D.
  pose proof (D Helmet) as D1. pose proof (D Mask) as D2.
  pose proof (D Gloves) as D3. pose proof (D Jacket) as D4.
  destruct a as [[] [] [] [] ? ? ? ? ? ?], b as [[] [] [] [] ? ? ? ? ? ?];
    simpl in D1, D2, D3, D4;
    try (discriminate (D1 eq_refl)); try (discriminate (D2 eq_refl));
    try (discriminate (D3 eq_refl)); try (discriminate (D4 eq_refl));
    vm_compute; split; congruence.
Qed.

(** X3. More predictions never take anything away: a detected category
    stays detected, no recorded confidence and no score goes down, and a
    compliant result stays compliant. *)
Theorem X3_more_predictions_monotone (l more : list prediction) :
  let r := _process_roboflow_response (Some l) in
  let r' := _process_roboflow_response (Some (l ++ more)%list) in
  (forall t, detected t r = true -> detected t r' = true) /\
  (forall t, ge (confidence t r') (confidence t r) = true) /\
  ge (compliance_score r') (compliance_score r) = true /\
  (is_compliant r = true -> is_compliant r' = true).
Proof.
  cbn zeta.
  assert (D : forall t,
             detected t (run l default_result) = true ->
             detected t (run (l ++ more) default_result) = true).
  { intros t. rewrite !run_detected, existsb_app.
    destruct (detected t default_result), (existsb (accepted t) l);
      simpl; congruence. }
  split; [|split].
  - intros t. rewrite !response_as_calculate, !detected_calculate. apply D.
  - intros t. rewrite !response_confidence, run_app. unfold ge.
    apply run_confidence_mono, slot_ok_run, slot_ok_default.
  - rewrite !response_as_calculate. unfold ge. now apply calculate_mono.
Qed.







(** X5. For every result of the normalizer the missing and the detected
    items are four together, there is one recommendation per missing item
    plus the praise, and the praise is there exactly when the result is
    compliant; so the list is never empty, and a compliant result with
    three detected items carries the advice for the fourth together with
    the praise for wearing all required equipment. *)
Theorem X5_recommendations (roboflow_data : option (list prediction)) :
  let r := _process_roboflow_response roboflow_data in
  let summary := get_detection_summary r in
  (List.length (sm_missing_items summary) + List.length (detected_ppe r) = 4)%nat /\
  List.length (sm_recommendations summary) =
    (List.length (sm_missing_items summary) +
     (if sm_is_compliant summary then 1 else 0))%nat /\
  sm_recommendations summary <> [] /\
  (In praise (sm_recommendations summary) <-> is_compliant r = true) /\
  (List.length (detected_ppe r) = 3%nat ->
   exists advice, sm_recommendations summary = [advice; praise] /\
                  advice <> praise).
Proof.
  cbn zeta. unfold get_detection_summary.
  cbn [sm_missing_items sm_recommendations sm_is_compliant].
  destruct roboflow_data as [l|].
  - rewrite response_as_calculate.
    destruct (run l default_result) as [[] [] [] [] ? ? ? ? ? ?];
      vm_compute;
      (split; [reflexivity|]); (split; [reflexivity|]);
      (split; [discriminate|]);
      (split; [split; [intros H; try reflexivity;
                        repeat (destruct H as [H|H]; [discriminate H|]);
                        destruct H
                      |intros H; try discriminate H; tauto]|]);
      intros H; try discriminate H;
      eexists; (split; [reflexivity|discriminate]).
  - vm_compute.
    (split; [reflexivity|]); (split; [reflexivity|]);
    (split; [discriminate|]).
    split; [|intros H; discriminate H].
    split; [intros H|intros H; discriminate H].
    repeat (destruct H as [H|H]; [discriminate H|]). destruct H.
Qed.

End DetectorMoreFacts.

(** ** The detector's HTTP entry points *)

Module DetectFacts.
Import PyFloat PyStr Models Effects Alerts Compliance EffectFacts.

Lemma contains_comma_cons (c : ascii) (s : string) :
  contains (String c s) "," = Ascii.eqb "," c || contains s ",".
Proof.
  change (contains (String c s) ",")
    with ((Ascii.eqb "," c && startswith s "") || contains s ",").
  destruct s; now rewrite andb_true_r.
Qed.

Lemma until_comma_no_comma (s : string) :
  contains (until_comma s) "," = false.
Proof.
  induction s as [|c s IH]; [reflexivity|].
  change (until_comma (String c s))
    with (if Ascii.eqb c "," then EmptyString else String c (until_comma s)).
  destruct (Ascii.eqb c ",") eqn:E; [reflexivity|].
  now rewrite contains_comma_cons, IH, orb_false_r, Ascii.eqb_sym.
Qed.

Lemma after_comma_none (s : string) :
  after_comma s = None <-> contains s "," = false.
Proof.
  induction s as [|c s IH]; [split; reflexivity|].
  rewrite contains_comma_cons.
  change (after_comma (String c s))
    with (if Ascii.eqb c "," then Some s else after_comma s).
  rewrite (Ascii.eqb_sym "," c).
  destruct (Ascii.eqb c ","); simpl; [split; discriminate|exact IH].
Qed.

Lemma after_comma_split (before rest : string) :
  contains before "," = false ->
  after_comma (before ++ "," ++ rest) = Some rest.
Proof.
  induction before as [|c s IH]; intros H; [reflexivity|].
  rewrite contains_comma_cons in H. apply orb_false_elim in H as [H1 H2].
  change (after_comma (String c s ++ "," ++ rest))
    with (if Ascii.eqb c "," then Some (s ++ "," ++ rest)
          else after_comma (s ++ "," ++ rest)).
  rewrite (Ascii.eqb_sym c ","), H1. now apply IH.
Qed.

(** X6. [detect_ppe_from_url] never raises and makes exactly one request.
    A request that raises and a response without the key 'predictions'
    give the result of a response with no prediction: not compliant, with
    the score 0.0. *)
Theorem X6_detect_url_fails_open (env : Env) (image_url : string)
    (h : history) :
  let api_key := ROBOFLOW_API_KEY (settings env) in
  let answer := requests_get env h (base_url env) api_key image_url in
  let nothing := Detector._process_roboflow_response (Some []) in
  exists r,
    detect_ppe_from_url env image_url h =
      (inr r, (h ++ [HttpGet (base_url env) api_key image_url])%list) /\
    (forall l, answer = inr (Some l) ->
               r = Detector._process_roboflow_response (Some l)) /\
    ((forall l, answer <> inr (Some l)) -> r = nothing) /\
    Detector.is_compliant nothing = false /\
    Detector.compliance_score nothing = zero /\
    Detector._get_missing_items nothing = ["helmet"; "mask"; "gloves"; "jacket"].
Proof.
  cbn zeta. unfold detect_ppe_from_url, try_except, perform. eff_unfold.
  unfold bind, ret.
  destruct (requests_get env h (base_url env) (ROBOFLOW_API_KEY (settings env))
              image_url) as [e|[l|]]; eexists; (split; [reflexivity|]);
    (split; [intros l' E; now inversion E|]);
    (split; [intros N; try reflexivity; now destruct (N l)|]);
    vm_compute; repeat split; reflexivity.
Qed.

(** X7. [detect_ppe_from_base64] never raises and makes exactly one
    request, with an image that holds no comma: a string without a comma
    is sent as it is, and of a data URL only what stands between the first
    comma and the next one is sent. *)
Theorem X7_detect_base64_strips_prefix (env : Env) (image_base64 : string)
    (h : history) :
  let api_key := ROBOFLOW_API_KEY (settings env) in
  exists image r,
    detect_ppe_from_base64 env image_base64 h =
      (inr r, (h ++ [HttpPost (base_url env) api_key image])%list) /\
    contains image "," = false /\
    (contains image_base64 "," = false -> image = image_base64) /\
    (forall before rest,
       contains before "," = false ->
       image_base64 = before ++ "," ++ rest -> image = until_comma rest) /\
    (forall l,
       requests_post env h (base_url env) api_key image = inr (Some l) ->
       r = Detector._process_roboflow_response (Some l)) /\
    ((forall l,
        requests_post env h (base_url env) api_key image <> inr (Some l)) ->
     r = Detector.default_result).
Proof.
  cbn zeta. unfold detect_ppe_from_base64, try_except, perform. eff_unfold.
  unfold bind, ret.
  set (image := match after_comma image_base64 with
                | Some rest => until_comma rest
                | None => image_base64
                end).
  exists image.
  assert (I1 : contains image "," = false).
  { unfold image. destruct (after_comma image_base64) eqn:E.
    - apply until_comma_no_comma.
    - now apply after_comma_none. }
  assert (I2 : contains image_base64 "," = false -> image = image_base64).
  { intros N. apply after_comma_none in N. unfold image. now rewrite N. }
  assert (I3 : forall before rest,
            contains before "," = false ->
            image_base64 = before ++ "," ++ rest -> image = until_comma rest).
  { intros before rest N ->. unfold image.
    now rewrite after_comma_split. }
  destruct (requests_post env h (base_url env) (ROBOFLOW_API_KEY (settings env))
              image) as [e|[l|]]; eexists;
    (split; [reflexivity|]); (split; [exact I1|]); (split; [exact I2|]);
    (split; [exact I3|]);
    (split; [intros l' E; now inversion E|]);
    intros N; try reflexivity; now destruct (N l).
Qed.

End DetectFacts.

(** ** More on the dispatcher, the resolvers and the formatter *)

Module AlertMoreFacts.
Import PyFloat PyStr PyTime Models Effects Alerts EffectFacts AlertFacts.
#[local] Set Warnings "-clear-no-such-hyp".

Lemma nonempty_true (s : string) : nonempty s = true <-> s <> "".
Proof. destruct s; simpl; split; congruence. Qed.

Lemma app_fixed {A} (h l : list A) : (h ++ l)%list = h -> l = [].
Proof.
  intros E. apply (app_inv_head h). now rewrite app_nil_r.
Qed.

(** X8. [send_slack_alert] returns [True] exactly when Slack is configured
    and the post returns; [send_email_alert] returns [True] exactly when
    SendGrid is configured and answers with status 200, 201 or 202: any
    other status gives [False], like a raised error. *)
Theorem X8_slack_email_success (env : Env) (self : AlertService)
    (message : string) (record : PPEComplianceRecord) (h : history) :
  let channel := SLACK_CHANNEL_ID (settings env) in
  (fst (send_slack_alert env self message record h) = inr true <->
   is_Some (slack_client self) /\ channel <> "" /\
   exists ts,
     slack_chat_postMessage env h channel message
       (_create_slack_blocks message record) = inr ts) /\
  (fst (send_email_alert env self message record h) = inr true <->
   is_Some (sendgrid_client self) /\
   exists status_code,
     sendgrid_send env h (alert_mail env message record) = inr status_code /\
     (status_code = 200 \/ status_code = 201 \/ status_code = 202)%Z).
Proof.
  cbn zeta. split.
  - unfold send_slack_alert. rewrite is_Some_decide.
    destruct (slack_client self) as [c|]; simpl.
    + destruct (nonempty (SLACK_CHANNEL_ID (settings env))) eqn:N; simpl.
      * apply nonempty_true in N.
        unfold try_except, perform. eff_unfold. unfold bind.
        destruct (slack_chat_postMessage env h _ _ _) as [[]|ts]; simpl;
          split; try discriminate; try tauto;
          try (intros (_ & _ & ts' & E); discriminate E).
        intros _. split; [now exists c|]. split; [exact N|now exists ts].
      * apply nonempty_false in N. split; [discriminate|].
        intros (_ & Hn & _). now destruct Hn.
    + split; [discriminate|]. intros ([c Hc] & _). discriminate Hc.
  - unfold send_email_alert. rewrite is_Some_decide.
    destruct (sendgrid_client self) as [c|]; simpl.
    + unfold try_except, perform. eff_unfold. unfold bind.
      change (mkMail _ _ _ _ _) with (alert_mail env message record).
      destruct (sendgrid_send env h (alert_mail env message record))
        as [e|status_code]; simpl.
      * split; [discriminate|]. intros (_ & sc & E & _). discriminate E.
      * destruct (Z.eqb_spec status_code 200) as [E1|E1];
          [|destruct (Z.eqb_spec status_code 201) as [E2|E2];
            [|destruct (Z.eqb_spec status_code 202) as [E3|E3]]]; simpl;
          (split;
           [intros H;
            first [discriminate H
                  |split; [now exists c|];
                   exists status_code; split; [reflexivity|tauto]]
           |intros (_ & sc & E & Hs);
            first [reflexivity|inversion E; subst sc; exfalso; lia]]).
    + split; [discriminate|]. intros ([c Hc] & _). discriminate Hc.
Qed.

Lemma whatsapp_recipients_defaults record :
  exists extra,
    _get_whatsapp_recipients record =
    ("+1234567890" :: "+1234567891" :: extra).
Proof.
  unfold _get_whatsapp_recipients.
  destruct (truthy (department record)); eexists; reflexivity.
Qed.

(** X9. Both resolvers return the two default recipients followed by at
    most one more, so the list is never empty; a configured
    [send_whatsapp_alert] therefore always calls Twilio for the two
    default numbers first, and its branch for an empty list is never
    taken. *)
Theorem X9_recipients_never_empty (env : Env) (self : AlertService)
    (message : string) (record : PPEComplianceRecord) (h : history) :
  (exists extra,
     _get_alert_recipients record =
       ("safety@yourcompany.com" :: "supervisor@yourcompany.com" :: extra) /\
     (List.length extra <= 1)%nat) /\
  (exists extra,
     _get_whatsapp_recipients record =
       ("+1234567890" :: "+1234567891" :: extra) /\
     (List.length extra <= 1)%nat /\
     (is_Some (twilio_client self) ->
      snd (send_whatsapp_alert env self message record h) =
      (h ++ map (twilio_call env (whatsapp_message record))
              ("+1234567890" :: "+1234567891" :: extra))%list)).
Proof.
  assert (L : forall (table : gmap string (list string)) k,
            table = email_dept_recipients \/
            table = whatsapp_dept_recipients ->
            (List.length (default [] (table !! k)) <= 1)%nat).
  { intros table k [->| ->];
      rewrite ?email_dept_lookup, ?whatsapp_dept_lookup;
      repeat case_decide; simpl; lia. }
  split.
  - unfold _get_alert_recipients.
    destruct (truthy (department record)).
    + eexists. split; [reflexivity|]. apply L. now left.
    + exists []. split; [reflexivity|simpl; lia].
  - assert (R : exists extra,
              _get_whatsapp_recipients record =
                ("+1234567890" :: "+1234567891" :: extra) /\
              (List.length extra <= 1)%nat).
    { unfold _get_whatsapp_recipients.
      destruct (truthy (department record)).
      - eexists. split; [reflexivity|]. apply L. now right.
      - exists []. split; [reflexivity|simpl; lia]. }
    destruct R as (extra & E & Hl). exists extra.
    split; [exact E|]. split; [exact Hl|].
    intros Hc. rewrite send_whatsapp_configured by exact Hc.
    rewrite whatsapp_deliver_spec. now rewrite E.
Qed.

(** X10. An empty department, location or shift is handled like an absent
    one: the four renderings and both recipient lists are the same. *)
Theorem X10_empty_string_is_absent (message : string)
    (record : PPEComplianceRecord) :
  let same (a b : PPEComplianceRecord) :=
    _create_slack_blocks message a = _create_slack_blocks message b /\
    _create_email_html message a = _create_email_html message b /\
    _create_email_text message a = _create_email_text message b /\
    whatsapp_message a = whatsapp_message b /\
    _get_alert_recipients a = _get_alert_recipients b /\
    _get_whatsapp_recipients a = _get_whatsapp_recipients b in
  same (set_department (Some "") record) (set_department None record) /\
  same (set_location (Some "") record) (set_location None record) /\
  same (set_shift (Some "") record) (set_shift None record).
Proof.
  cbn zeta. destruct record. repeat split; reflexivity.
Qed.

Lemma in_list_iff (x : string) (channels channels' : list string) :
  (In x channels <-> In x channels') ->
  in_list x channels = in_list x channels'.
Proof.
  intros H. apply eq_true_iff_eq.
  rewrite !in_list_spec, !list_elem_of_In. exact H.
Qed.

(** X11. [send_custom_alert] looks only at which of the names slack, email
    and whatsapp occur in the requested list: their order, repetitions and
    any other name change neither the result nor the calls made. *)
Theorem X11_custom_alert_channel_set (env : Env) (self : AlertService)
    (message : string) (channels channels' : list string)
    (record : PPEComplianceRecord) (h : history) :
  (forall x, In x ["slack"; "email"; "whatsapp"] ->
             (In x channels <-> In x channels')) ->
  send_custom_alert env self message channels record h =
  send_custom_alert env self message channels' record h.
Proof.
  intros H. unfold send_custom_alert.
  rewrite (in_list_iff "slack" channels channels') by (apply H; simpl; tauto).
  rewrite (in_list_iff "email" channels channels') by (apply H; simpl; tauto).
  rewrite (in_list_iff "whatsapp" channels channels')
    by (apply H; simpl; tauto).
  reflexivity.
Qed.

Lemma X11_custom_alert_channel_set_witness :
  (forall x, In x ["slack"; "email"; "whatsapp"] ->
             (In x ["whatsapp"; "sms"; "slack"; "slack"] <->
              In x ["slack"; "whatsapp"])) /\
  send_custom_alert example_env (__init__ example_settings) "alert"
    ["whatsapp"; "sms"; "slack"; "slack"] example_record [] =
  send_custom_alert example_env (__init__ example_settings) "alert"
    ["slack"; "whatsapp"] example_record [].
Proof.
  assert (H : forall x, In x ["slack"; "email"; "whatsapp"] ->
                        (In x ["whatsapp"; "sms"; "slack"; "slack"] <->
                         In x ["slack"; "whatsapp"])).
  { intros x Hx. simpl in *. intuition (subst; try discriminate; auto). }
  split; [exact H|].
  exact (X11_custom_alert_channel_set example_env (__init__ example_settings)
           "alert" _ _ example_record [] H).
Defined.

(** X12. A service built by [__init__] from the settings leaves the
    history untouched exactly when the channel lacks a credential: Slack
    needs the bot token and the channel id, SendGrid its key, Twilio both
    the account SID and the auth token. *)
Theorem X12_calls_iff_credentials (env : Env) (message : string)
    (record : PPEComplianceRecord) (h : history) :
  let st := settings env in
  let self := __init__ st in
  (snd (send_slack_alert env self message record h) = h <->
   SLACK_BOT_TOKEN st = "" \/ SLACK_CHANNEL_ID st = "") /\
  (snd (send_email_alert env self message record h) = h <->
   SENDGRID_API_KEY st = "") /\
  (snd (send_whatsapp_alert env self message record h) = h <->
   TWILIO_ACCOUNT_SID st = "" \/ TWILIO_AUTH_TOKEN st = "").
Proof.
  cbn zeta. split; [|split].
  - destruct (nonempty (SLACK_BOT_TOKEN (settings env))) eqn:T.
    + destruct (nonempty (SLACK_CHANNEL_ID (settings env))) eqn:C.
      * unfold send_slack_alert, __init__. rewrite is_Some_decide, T, C.
        cbn [slack_client negb orb].
        unfold try_except, perform. eff_unfold. unfold bind.
        apply nonempty_true in T, C.
        destruct (slack_chat_postMessage env h _ _ _) as [[]|ts]; simpl;
          (split; [intros E; apply app_fixed in E; discriminate E|tauto]).
      * apply nonempty_false in C.
        rewrite send_slack_unconfigured by now right. simpl. tauto.
    + apply nonempty_false in T.
      rewrite send_slack_unconfigured; [simpl; tauto|].
      left. unfold __init__. cbn [slack_client].
      now rewrite T.
  - destruct (nonempty (SENDGRID_API_KEY (settings env))) eqn:K.
    + unfold send_email_alert, __init__. rewrite is_Some_decide, K.
      cbn [sendgrid_client negb].
      unfold try_except, perform. eff_unfold. unfold bind.
      apply nonempty_true in K.
      destruct (sendgrid_send env h _) as [e|sc];
        [|destruct (existsb (Z.eqb sc) [200; 201; 202]%Z)];
        cbn [snd ret];
        (split; [intros E; apply app_fixed in E; discriminate E|tauto]).
    + apply nonempty_false in K.
      rewrite send_email_unconfigured; [simpl; tauto|].
      unfold __init__. cbn [sendgrid_client]. now rewrite K.
  - destruct (nonempty (TWILIO_ACCOUNT_SID (settings env))) eqn:S1;
      destruct (nonempty (TWILIO_AUTH_TOKEN (settings env))) eqn:S2.
    1: { assert (Hc : is_Some (twilio_client (__init__ (settings env)))).
         { unfold __init__. cbn [twilio_client]. rewrite S1, S2. simpl.
           eexists; reflexivity. }
         destruct (whatsapp_recipients_defaults record) as (extra & E).
         rewrite send_whatsapp_configured by exact Hc.
         rewrite whatsapp_deliver_spec, E. cbn [snd map].
         apply nonempty_true in S1, S2.
         split; [intros F; apply app_fixed in F; discriminate F|tauto]. }
    all: rewrite send_whatsapp_unconfigured
      by (unfold __init__; cbn [twilio_client]; now rewrite S1, S2);
      cbn [snd]; apply nonempty_false in S1 || apply nonempty_false in S2;
      tauto.
Qed.

End AlertMoreFacts.

(** ** More on the compliance check *)

Module ComplianceMoreFacts.
Import PyFloat PyStr PyTime Models Effects Alerts Compliance ComplianceMore
  EffectFacts AlertFacts ComplianceFacts.


(** The two ways a check ends. *)
Lemma check_compliance_cases env request h :
  exists resp evs,
    check_compliance env request h = (inr resp, (h ++ evs)%list) /\
    ((exists e, resp = failed e /\ Forall quiet evs) \/
     (exists w h1 d h2 rec b,
        _get_or_create_worker env request h = (inr w, h1) /\
        _perform_ppe_detection env request h1 = (inr d, h2) /\
        resp = completed d rec b /\
        exists pre,
          _create_compliance_record env request d w h2 =
            (inr rec, (h ++ pre)%list) /\
          Forall quiet pre /\
          if Detector.is_compliant d then b = false /\ evs = pre
          else exists post,
                 evs = (pre ++ EnterSendComplianceAlerts :: post)%list /\
                 _send_compliance_alerts env rec d (h ++ pre)%list =
                 (inr b, (h ++ evs)%list))).
Proof.
  unfold check_compliance, try_except. eff_unfold. unfold bind.
  destruct (get_or_create_worker_quiet env request h)
    as (r1 & ev1 & E1 & F1). rewrite E1.
  destruct r1 as [e|w].
  { eexists _, ev1. split; [reflexivity|]. left. now exists e. }
  destruct (perform_ppe_detection_quiet env request (h ++ ev1)%list)
    as (r2 & ev2 & E2 & F2).
  destruct (perform_ppe_detection_returns env request (h ++ ev1)%list)
    as (d & h2 & E2').
  rewrite E2 in E2'. inversion E2'; subst r2. clear E2'. rewrite E2.
  destruct (create_compliance_record_quiet env request d w
              ((h ++ ev1) ++ ev2)%list) as (r3 & ev3 & E3 & F3).
  rewrite E3.
  assert (Q : Forall quiet (ev1 ++ ev2 ++ ev3)%list)
    by now repeat apply Forall_app_2.
  assert (A : (((h ++ ev1) ++ ev2) ++ ev3)%list =
              (h ++ ev1 ++ ev2 ++ ev3)%list) by now rewrite !app_assoc.
  destruct r3 as [e|rec].
  { eexists _, (ev1 ++ ev2 ++ ev3)%list. split; [now rewrite A|].
    left. now exists e. }
  rewrite A in E3.
  destruct (Detector.is_compliant d) eqn:C; cbn [negb].
  - unfold ret. eexists _, (ev1 ++ ev2 ++ ev3)%list.
    split; [now rewrite A|]. right.
    exists w, (h ++ ev1)%list, d, ((h ++ ev1) ++ ev2)%list, rec, false.
    split; [first [exact E1|reflexivity]|]. split; [exact E2|].
    split; [reflexivity|].
    exists (ev1 ++ ev2 ++ ev3)%list. rewrite C. auto.
  - rewrite A.
    destruct (send_compliance_alerts_spec env rec d
                (h ++ ev1 ++ ev2 ++ ev3)%list) as (b & ev4 & E4).
    rewrite E4. unfold ret.
    eexists _,
      ((ev1 ++ ev2 ++ ev3) ++ EnterSendComplianceAlerts :: ev4)%list.
    split; [now rewrite !app_assoc|]. right.
    exists w, (h ++ ev1)%list, d, ((h ++ ev1) ++ ev2)%list, rec, b.
    split; [first [exact E1|reflexivity]|]. split; [exact E2|].
    split; [reflexivity|].
    exists (ev1 ++ ev2 ++ ev3)%list. rewrite C.
    split; [exact E3|]. split; [exact Q|].
    exists ev4. split; [reflexivity|]. rewrite E4. now rewrite !app_assoc.
Qed.

(** What the detection step returns is a result of the normalizer. *)
Lemma perform_ppe_detection_result env request h d h' :
  _perform_ppe_detection env request h = (inr d, h') ->
  exists data, d = Detector._process_roboflow_response data.
Proof.
  unfold _perform_ppe_detection, detect_ppe_from_url, detect_ppe_from_base64,
    try_except, perform.
  eff_unfold. unfold bind, ret.
  destruct (truthy (rq_image_url request)).
  - destruct (requests_get env h _ _ _) as [e|data]; intros E;
      inversion E; [now exists None|now exists data].
  - destruct (truthy (rq_image_base64 request)).
    + destruct (requests_post env h _ _ _) as [e|data]; intros E;
        inversion E; [now exists None|now exists data].
    + intros E. inversion E. now exists None.
Qed.

Lemma response_verdict data :
  let r := Detector._process_roboflow_response data in
  Detector.is_compliant r = ge (Detector.compliance_score r) (of_Z 75) /\
  In (Detector.compliance_score r)
    [of_Z 0; of_Z 25; of_Z 50; of_Z 75; of_Z 100] /\
  (Detector.is_compliant r = true <->
   (List.length (Detector._get_missing_items r) <= 1)%nat).
Proof.
  cbn zeta. destruct data as [l|].
  - unfold Detector._process_roboflow_response.
    destruct (Detector.run l Detector.default_result)
      as [[] [] [] [] ? ? ? ? ? ?];
      vm_compute; repeat split; intros; try congruence; try lia; tauto.
  - vm_compute; repeat split; intros; try congruence; try lia; tauto.
Qed.

(** X14. Whatever the collaborators do, [check_compliance] returns a
    response and never raises.  A completed check carries the fixed
    message, the key of the stored record and a detection result whose
    verdict is its score compared with 75.0, at most one item missing
    when compliant, and reports an alert only for a result that is not
    compliant; a failed check carries the text of the error and nothing
    else, and has entered no alert step. *)
Theorem X14_check_compliance_response (env : Env)
    (request : ComplianceCheckRequest) (h : history) :
  exists resp evs,
    check_compliance env request h = (inr resp, (h ++ evs)%list) /\
    (success resp = true ->
     message resp = "Compliance check completed successfully" /\
     is_Some (record_id resp) /\
     exists d,
       data resp = Some d /\
       Detector.is_compliant d =
         ge (Detector.compliance_score d) (of_Z 75) /\
       (Detector.is_compliant d = true <->
        (List.length (Detector._get_missing_items d) <= 1)%nat) /\
       (rs_alert_sent resp = true -> Detector.is_compliant d = false)) /\
    (success resp = false ->
     data resp = None /\ record_id resp = None /\
     rs_alert_sent resp = false /\
     (exists e,
        message resp = "Error during compliance check: " ++ exn_str e) /\
     ~ In EnterSendComplianceAlerts evs).
Proof.
  destruct (check_compliance_cases env request h)
    as (resp & evs & E & [(e & -> & Q)|
         (w & h1 & d & h2 & rec & b & Ew & Ed & -> & pre & Er & Q & G)]);
    eexists _, evs; (split; [exact E|]); cbn [success]; split;
    try discriminate.
  - intros _. cbn [data record_id rs_alert_sent message failed].
    split; [reflexivity|]. split; [reflexivity|]. split; [reflexivity|].
    split; [now exists e|now apply quiet_not_in].
  - intros _. cbn [data record_id rs_alert_sent message completed].
    split; [reflexivity|]. split; [now eexists|].
    exists d. split; [reflexivity|].
    destruct (perform_ppe_detection_result env request h1 d h2 Ed)
      as (x & ->).
    destruct (response_verdict x) as (V1 & _ & V3). cbn zeta in V1, V3.
    split; [exact V1|]. split; [exact V3|].
    intros ->.
    destruct (Detector.is_compliant (Detector._process_roboflow_response x));
      [now destruct G|reflexivity].
Qed.

Lemma get_or_create_worker_local env request :
  emits not_http (_get_or_create_worker env request).
Proof.
  unfold _get_or_create_worker. eff_unfold.
  apply emits_bind; [now apply emits_perform|].
  intros [w|]; [apply emits_ret|now apply emits_perform].
Qed.

Lemma create_compliance_record_local env request d w :
  emits not_http (_create_compliance_record env request d w).
Proof.
  unfold _create_compliance_record. eff_unfold.
  apply emits_bind; [now apply emits_perform|intros a; apply emits_ret].
Qed.

Lemma send_slack_local env self message record :
  emits not_http (send_slack_alert env self message record).
Proof.
  intros h.
  destruct (send_slack_cases env self message record h)
    as [E|(answer & _ & E)]; rewrite E.
  - exists (inr false), []. now rewrite app_nil_r.
  - eexists _, _. split; [reflexivity|]. now repeat constructor.
Qed.

Lemma send_email_local env self message record :
  emits not_http (send_email_alert env self message record).
Proof.
  intros h.
  destruct (send_email_cases env self message record h)
    as [E|(answer & _ & E)]; rewrite E.
  - exists (inr false), []. now rewrite app_nil_r.
  - eexists _, _. split; [reflexivity|]. now repeat constructor.
Qed.

Lemma send_whatsapp_local env self message record :
  emits not_http (send_whatsapp_alert env self message record).
Proof.
  intros h.
  destruct (send_whatsapp_cases env self message record h) as [E|E];
    rewrite E.
  - exists (inr false), []. now rewrite app_nil_r.
  - rewrite whatsapp_deliver_spec. eexists _, _. split; [reflexivity|].
    apply Forall_forall. intros c Hc. apply in_map_iff in Hc as (r & <- & _).
    exact I.
Qed.

Lemma send_compliance_alerts_local env record d :
  emits not_http (_send_compliance_alerts env record d).
Proof.
  unfold _send_compliance_alerts. eff_unfold.
  apply emits_bind; [now apply emits_mark|intros _].
  apply emits_try; [|intros e; apply emits_ret].
  apply emits_bind; [apply send_slack_local|intros b1].
  apply emits_bind; [apply send_email_local|intros b2].
  apply emits_bind; [apply send_whatsapp_local|intros b3].
  apply emits_bind; [now apply emits_perform|intros u; apply emits_ret].
Qed.

(** X15. A request without an image (no URL and no base64 data, or empty
    ones) makes no call to the detection service and is handled like a
    worker on whom nothing was detected: the result is the default one,
    and every completed check enters the alert step. *)
Theorem X15_check_without_image (env : Env)
    (request : ComplianceCheckRequest) (h : history) :
  truthy (rq_image_url request) = false ->
  truthy (rq_image_base64 request) = false ->
  _perform_ppe_detection env request h = (inr Detector.default_result, h) /\
  exists resp evs,
    check_compliance env request h = (inr resp, (h ++ evs)%list) /\
    Forall not_http evs /\
    (success resp = true ->
     data resp = Some Detector.default_result /\
     In EnterSendComplianceAlerts evs).
Proof.
  intros Hu Hb.
  assert (D : forall h0,
             _perform_ppe_detection env request h0 =
             (inr Detector.default_result, h0)).
  { intros h0. unfold _perform_ppe_detection. now rewrite Hu, Hb. }
  split; [apply D|].
  assert (L : emits not_http (check_compliance env request)).
  { unfold check_compliance. eff_unfold.
    apply emits_try; [|intros e; apply emits_ret].
    apply emits_bind; [apply get_or_create_worker_local|intros w].
    apply emits_bind.
    - unfold _perform_ppe_detection. rewrite Hu, Hb. apply emits_ret.
    - intros d.
      apply emits_bind; [apply create_compliance_record_local|intros rec].
      apply emits_bind; [|intros b; apply emits_ret].
      destruct (negb (Detector.is_compliant d));
        [apply send_compliance_alerts_local|apply emits_ret]. }
  destruct (check_compliance_cases env request h)
    as (resp & evs & E & [(e & -> & Q)|
         (w & h1 & d & h2 & rec & b & Ew & Ed & -> & pre & Er & Q & G)]);
    eexists _, evs; (split; [exact E|]);
    (split; [destruct (L h) as (r' & evs' & E' & F'); rewrite E in E';
             inversion E' as [[Hr Hh]]; apply app_inv_head in Hh;
             now subst evs'|]).
  - intros Hs. discriminate Hs.
  - intros _. rewrite D in Ed. inversion Ed; subst d h2.
    split; [reflexivity|]. cbn [Detector.is_compliant Detector.default_result] in G.
    destruct G as (post & -> & _). apply in_app_iff. right. now left.
Qed.

Lemma X15_check_without_image_witness :
  truthy (rq_image_url imageless_request) = false /\
  truthy (rq_image_base64 imageless_request) = false /\
  exists resp evs,
    check_compliance example_env imageless_request [] = (inr resp, evs) /\
    success resp = true /\ In EnterSendComplianceAlerts evs.
Proof.
  split; [reflexivity|]. split; [reflexivity|].
  destruct (X15_check_without_image example_env imageless_request []
              eq_refl eq_refl) as (_ & resp & evs & E & _ & H).
  exists resp, evs. split; [exact E|].
  assert (S : success resp = true).
  { revert E. vm_compute. intros E. inversion E. reflexivity. }
  split; [exact S|]. now apply H.
Defined.

(** X16. [_get_or_create_worker] looks the worker up once.  A known worker
    is returned as stored, nothing is written and the name, department
    and shift of the request are not used; for an unknown id one worker is
    inserted whose name and department are those of the request or, when
    absent or empty, "Unknown"; when the lookup raises nothing is
    inserted. *)
Theorem X16_get_or_create_worker (env : Env)
    (request : ComplianceCheckRequest) (h : history) :
  let key := rq_worker_id request in
  let h1 := (h ++ [DbFirstWorker key])%list in
  _get_or_create_worker env request h =
    match db_first_worker env h key with
    | inl e => (inl e, h1)
    | inr (Some worker) => (inr worker, h1)
    | inr None =>
        (db_insert_worker env h1 (new_worker request),
         (h1 ++ [DbInsertWorker (new_worker request)])%list)
    end /\
  (exists name dept,
     w_name (new_worker request) = Some name /\ name <> "" /\
     w_department (new_worker request) = Some dept /\ dept <> "" /\
     (truthy (rq_worker_name request) = false -> name = "Unknown") /\
     (truthy (rq_department request) = false -> dept = "Unknown")) /\
  w_worker_id (new_worker request) = key.
Proof.
  cbn zeta. split; [|split; [|reflexivity]].
  - unfold _get_or_create_worker, perform. eff_unfold. unfold bind, ret.
    destruct (db_first_worker env h (rq_worker_id request)) as [e|[w|]];
      reflexivity.
  - eexists _, _. split; [reflexivity|]. split; [|split; [reflexivity|]].
    + destruct (rq_worker_name request) as [[|c n]|]; discriminate.
    + split.
      * destruct (rq_department request) as [[|c n]|]; discriminate.
      * split; [destruct (rq_worker_name request) as [[|c n]|]
               |destruct (rq_department request) as [[|c n]|]];
          simpl; congruence.
Qed.

End ComplianceMoreFacts.

(** ** The statistics *)

Module StatsFacts.
Import PyFloat PyStr PyTime Models Stats.

Section Tally.
Context {K : Type} `{Countable K}.
Variable key : PPEComplianceRecord -> K.

(** One round adds the record to its group and touches no other. *)
Lemma tally_record_lookup (groups : gmap K (nat * nat)) record k :
  tally_record key groups record !! k =
  if decide (key record = k) then
    let e := default (0, 0)%nat (groups !! k) in
    Some (fst e + 1, snd e + (if is_compliant record then 1 else 0))%nat
  else groups !! k.
Proof.
  unfold tally_record.
  destruct (decide (key record = k)) as [<-|Hk].
  - destruct (groups !! key record) as [[t c]|] eqn:E;
      destruct (is_compliant record);
      rewrite ?lookup_alter_eq, ?lookup_insert_eq, ?E; simpl;
      repeat f_equal; lia.
  - destruct (groups !! key record) as [[t c]|] eqn:E;
      destruct (is_compliant record);
      rewrite ?lookup_alter_ne, ?lookup_insert_ne by exact Hk; reflexivity.
Qed.

Lemma group_counts_cons k record records :
  group_total key k (record :: records) =
    ((if decide (key record = k) then 1 else 0) +
     group_total key k records)%nat /\
  group_compliant key k (record :: records) =
    ((if decide (key record = k)
      then if is_compliant record then 1 else 0 else 0) +
     group_compliant key k records)%nat.
Proof.
  unfold group_total, group_compliant, in_group. simpl.
  destruct (decide (key record = k)) as [E|E].
  - rewrite (bool_decide_eq_true_2 _ E). simpl.
    destruct (is_compliant record); simpl; split; reflexivity.
  - rewrite (bool_decide_eq_false_2 _ E). simpl. split; reflexivity.
Qed.

(** The loop from any starting map. *)
Lemma tally_from_lookup records (groups : gmap K (nat * nat)) k :
  fold_left (tally_record key) records groups !! k =
  match groups !! k with
  | Some e =>
      Some (fst e + group_total key k records,
            snd e + group_compliant key k records)%nat
  | None =>
      if (group_total key k records =? 0)%nat then None
      else Some (group_total key k records, group_compliant key k records)
  end.
Proof.
  revert groups. induction records as [|r rs IH]; intros groups.
  - simpl. unfold group_total, group_compliant. simpl.
    destruct (groups !! k) as [[t c]|]; [|reflexivity].
    simpl. repeat f_equal; lia.
  - simpl. rewrite IH, tally_record_lookup.
    destruct (group_counts_cons k r rs) as [-> ->].
    destruct (decide (key r = k)) as [E|E].
    + cbn zeta. destruct (groups !! k) as [[t c]|], (is_compliant r);
        simpl; try reflexivity; do 2 f_equal; lia.
    + destruct (groups !! k) as [[t c]|]; simpl; reflexivity.
Qed.

Lemma group_compliant_le k records :
  (group_compliant key k records <= group_total key k records)%nat.
Proof.
  induction records as [|r rs IH]; [reflexivity|].
  destruct (group_counts_cons k r rs) as [-> ->].
  destruct (decide (key r = k)), (is_compliant r); lia.
Qed.

Lemma with_rates_tally_lookup records k :
  with_rates (tally key records) !! k =
  let n := group_total key k records in
  let c := group_compliant key k records in
  if (n =? 0)%nat then None
  else Some (n, c, Float (Detector.score_of c n)).
Proof.
  unfold with_rates, tally. rewrite lookup_fmap, tally_from_lookup.
  rewrite lookup_empty. cbn zeta.
  destruct (group_total key k records) as [|n] eqn:E; [reflexivity|].
  reflexivity.
Qed.

(** One round, as an insertion. *)
Lemma tally_record_insert (groups : gmap K (nat * nat)) record :
  tally_record key groups record =
  let e := default (0, 0)%nat (groups !! key record) in
  <[key record :=
      (fst e + 1, snd e + (if is_compliant record then 1 else 0))%nat]>
    groups.
Proof.
  apply map_eq. intros k. rewrite tally_record_lookup. cbn zeta.
  destruct (decide (key record = k)) as [<-|Hk].
  - now rewrite lookup_insert_eq.
  - now rewrite lookup_insert_ne.
Qed.

Lemma map_fold_plus_insert (f : nat * nat -> nat)
    (groups : gmap K (nat * nat)) k e :
  (map_fold (fun _ x acc => f x + acc) 0 (<[k := e]> groups) +
   match groups !! k with Some old => f old | None => 0 end =
   f e + map_fold (fun _ x acc => f x + acc) 0 groups)%nat.
Proof.
  assert (C : forall (m : gmap K (nat * nat)) (j1 j2 : K) z1 z2 (y : nat),
            j1 <> j2 -> m !! j1 = Some z1 -> m !! j2 = Some z2 ->
            (f z1 + (f z2 + y) = f z2 + (f z1 + y))%nat)
    by (intros; lia).
  destruct (groups !! k) as [old|] eqn:E.
  - rewrite <- (insert_delete_eq groups).
    rewrite (map_fold_insert_L _ _ _ _ (delete k groups))
      by (try apply C; apply lookup_delete_eq).
    rewrite (map_fold_delete_L _ 0%nat k old groups) by (try apply C; exact E).
    lia.
  - rewrite (map_fold_insert_L _ _ _ _ groups) by (try apply C; exact E).
    lia.
Qed.

Lemma tally_from_sums records (groups : gmap K (nat * nat)) :
  map_fold (fun _ x acc => fst x + acc)%nat 0%nat
    (fold_left (tally_record key) records groups) =
  (map_fold (fun _ x acc => fst x + acc)%nat 0%nat groups +
   List.length records)%nat /\
  map_fold (fun _ x acc => snd x + acc)%nat 0%nat
    (fold_left (tally_record key) records groups) =
  (map_fold (fun _ x acc => snd x + acc)%nat 0%nat groups +
   count_compliant records)%nat.
Proof.
  revert groups. induction records as [|r rs IH]; intros groups.
  - unfold count_compliant. simpl. split; lia.
  - simpl. destruct (IH (tally_record key groups r)) as [-> ->].
    rewrite tally_record_insert. cbn zeta.
    pose proof (map_fold_plus_insert fst groups (key r)
      (fst (default (0, 0)%nat (groups !! key r)) + 1,
       snd (default (0, 0)%nat (groups !! key r)) +
       (if is_compliant r then 1 else 0))%nat) as S1.
    pose proof (map_fold_plus_insert snd groups (key r)
      (fst (default (0, 0)%nat (groups !! key r)) + 1,
       snd (default (0, 0)%nat (groups !! key r)) +
       (if is_compliant r then 1 else 0))%nat) as S2.
    unfold count_compliant. simpl.
    destruct (groups !! key r) as [[t c]|]; simpl in S1, S2 |- *;
      destruct (is_compliant r); simpl; split; lia.
Qed.

Lemma with_rates_sums records :
  sum_totals (with_rates (tally key records)) = List.length records /\
  sum_compliant (with_rates (tally key records)) = count_compliant records.
Proof.
  unfold sum_totals, sum_compliant, with_rates, tally.
  rewrite !map_fold_fmap.
  change (map_fold (fun _ x acc => fst x + acc)%nat 0%nat
            (fold_left (tally_record key) records ∅) = List.length records /\
          map_fold (fun _ x acc => snd x + acc)%nat 0%nat
            (fold_left (tally_record key) records ∅) =
          count_compliant records).
  destruct (tally_from_sums records ∅) as [S1 S2].
  rewrite S1, S2, !map_fold_empty. split; reflexivity.
Qed.

End Tally.

Lemma count_compliant_le records :
  (count_compliant records <= List.length records)%nat.
Proof. unfold count_compliant. apply filter_length_le. Qed.

(** X17. The department breakdown of [get_overall_compliance_stats] has
    an entry exactly for the departments that occur among the records,
    where a record without a department, or with an empty one, counts
    under "Unknown".  The entry holds the number of records of the
    department, the number of compliant ones among them, which is never
    larger, and their rate as a float: a department in the breakdown has
    at least one record, so its rate is never the integer 0 of the
    fallback. *)
Theorem X17_department_breakdown (days : Z)
    (records : list PPEComplianceRecord) (dept : string) :
  let stats := get_overall_compliance_stats days records in
  let n := group_total department_key dept records in
  let c := group_compliant department_key dept records in
  os_departments stats !! dept =
    (if (n =? 0)%nat then None
     else Some (n, c, Float (Detector.score_of c n))) /\
  (c <= n)%nat /\
  (is_Some (os_departments stats !! dept) <->
   exists r, In r records /\ department_key r = dept) /\
  (forall r, truthy (department r) = false -> department_key r = "Unknown").
Proof.
  cbn zeta. unfold get_overall_compliance_stats. cbn [os_departments].
  rewrite with_rates_tally_lookup. cbn zeta.
  split; [reflexivity|]. split; [apply group_compliant_le|]. split.
  - unfold group_total.
    destruct (List.filter (in_group department_key dept) records)
      as [|r rs] eqn:E; simpl.
    + split; [intros [x Hx]; discriminate Hx|].
      intros (r & Hin & Hr). exfalso.
      assert (F : In r (List.filter (in_group department_key dept) records)).
      { apply filter_In. split; [exact Hin|].
        unfold in_group. now apply bool_decide_eq_true_2. }
      rewrite E in F. destruct F.
    + split; [|intros _; eexists; reflexivity]. intros _.
      assert (F : In r (List.filter (in_group department_key dept) records))
        by (rewrite E; now left).
      apply filter_In in F as [Hin Hr]. exists r. split; [exact Hin|].
      unfold in_group in Hr. now apply bool_decide_eq_true_1 in Hr.
  - intros r Hr. unfold department_key.
    destruct (department r) as [[|a d]|]; [reflexivity|discriminate Hr|
                                           reflexivity].
Qed.

Lemma rate_int_zero compliant total :
  rate compliant total = Int 0 <-> total = 0%nat.
Proof.
  unfold rate. destruct total as [|n]; simpl; split; congruence.
Qed.

(** X18. In both statistics the compliant and the non-compliant checks add
    up to the total and neither count is negative; the overall rate is the
    integer 0 exactly when there is no record, and then the breakdown is
    empty.  The totals of the departments add up to the total number of
    checks, and their compliant counts to the number of compliant
    checks. *)
Theorem X18_statistics_add_up (department : string) (days : Z)
    (records : list PPEComplianceRecord) :
  let overall := get_overall_compliance_stats days records in
  let one := get_department_compliance_stats department days records in
  (Z.of_nat (os_compliant_checks overall) + os_non_compliant_checks overall =
     Z.of_nat (os_total_checks overall) /\
   0 <= os_non_compliant_checks overall)%Z /\
  (Z.of_nat (ds_compliant_checks one) + ds_non_compliant_checks one =
     Z.of_nat (ds_total_checks one) /\
   0 <= ds_non_compliant_checks one)%Z /\
  (os_compliance_rate overall = Int 0 <-> records = []) /\
  (ds_compliance_rate one = Int 0 <-> records = []) /\
  (records = [] -> os_departments overall = ∅) /\
  sum_totals (os_departments overall) = os_total_checks overall /\
  sum_compliant (os_departments overall) = os_compliant_checks overall.
Proof.
  cbn zeta.
  unfold get_overall_compliance_stats, get_department_compliance_stats.
  cbn [os_compliant_checks os_non_compliant_checks os_total_checks
       ds_compliant_checks ds_non_compliant_checks ds_total_checks
       os_compliance_rate ds_compliance_rate os_departments].
  pose proof (count_compliant_le records) as L.
  destruct (with_rates_sums department_key records) as [S1 S2].
  assert (E : List.length records = 0%nat <-> records = [])
    by (destruct records; simpl; split; congruence).
  split; [split; lia|]. split; [split; lia|].
  split; [now rewrite rate_int_zero|].
  split; [now rewrite rate_int_zero|].
  split; [intros ->; reflexivity|].
  split; [exact S1|exact S2].
Qed.

(** X19. [get_compliance_analytics] gives the empty dict for no record.
    Otherwise its summary and its department statistics are those of
    [get_overall_compliance_stats] for the same records, no item is counted
    more often than there are records, the hourly statistics group the
    records by the hour of their timestamp, and the hourly totals add up
    to the number of records. *)
Theorem X19_analytics (generated_at : string) (days : Z)
    (records : list PPEComplianceRecord) :
  let overall := get_overall_compliance_stats days records in
  get_compliance_analytics generated_at [] = None /\
  (records <> [] ->
   exists a,
     get_compliance_analytics generated_at records = Some a /\
     (an_total_records a = os_total_checks overall /\
      an_compliant_records a = os_compliant_checks overall /\
      an_non_compliant_records a = os_non_compliant_checks overall /\
      an_compliance_rate a = os_compliance_rate overall /\
      an_department_statistics a = os_departments overall) /\
     (forall name n r, In (name, (n, r)) (an_ppe_statistics a) ->
                       (n <= an_total_records a)%nat) /\
     (forall hr,
        an_hourly_statistics a !! hr =
        let n := group_total hour_key hr records in
        let c := group_compliant hour_key hr records in
        if (n =? 0)%nat then None
        else Some (n, c, Float (Detector.score_of c n))) /\
     sum_totals (an_hourly_statistics a) = an_total_records a).
Proof.
  cbn zeta. split; [reflexivity|]. intros Hne.
  destruct records as [|r0 rs]; [now destruct Hne|].
  eexists. split; [reflexivity|].
  cbn [an_total_records an_compliant_records an_non_compliant_records
       an_compliance_rate an_department_statistics an_ppe_statistics
       an_hourly_statistics].
  split; [repeat split; reflexivity|]. split; [|split].
  - intros name n r Hin. cbn [In] in Hin.
    destruct Hin as [Hin|[Hin|[Hin|[Hin|[]]]]]; inversion Hin; subst;
      apply (filter_length_le _ (r0 :: rs)).
  - intros hr. apply with_rates_tally_lookup.
  - apply with_rates_sums.
Qed.

End StatsFacts.

(** ** The demo server *)

Module DemoFacts.
Import PyFloat Detector Demo.

(** X20. Whatever it draws, the mock detection of the demo server scores
    like the detector: its score and verdict are what
    [_calculate_compliance] computes from its four flags, so the result is
    compliant exactly when at least three items are drawn as detected, and
    an item that is not detected has the confidence 0.0. *)
Theorem X20_mock_detection_scores_alike (i1 i2 i3 i4 : nat)
    (u1 u2 u3 u4 : float) :
  let r := mock_ppe_detection i1 i2 i3 i4 u1 u2 u3 u4 in
  _calculate_compliance r = r /\
  (is_compliant r = true <-> (3 <= List.length (detected_ppe r))%nat) /\
  (forall t, detected t r = false -> confidence t r = zero).
Proof.
  cbn zeta. unfold mock_ppe_detection.
  generalize (choice [true; true; true; false] i1)
             (choice [true; true; false; false] i2)
             (choice [true; true; true; false] i3)
             (choice [true; true; false; false] i4).
  intros [] [] [] []; cbn zeta;
    (split; [reflexivity|]);
    (split; [vm_compute; split; intros; try congruence; lia|]);
    intros [] E; try discriminate E; reflexivity.
Qed.

End DemoFacts.
